(** * Fraud scoring core of [app.py]

    A shallow embedding of [analyze_transaction] (src/app.py, lines 70-177):
    the statistics lookup (lines 79-108) and the heuristic risk scorer
    (lines 110-177).  The Streamlit presentation code around them is not
    modelled.

    Python's [float] is IEEE 754 binary64.  It is modelled by the standard
    library's executable specification [SpecFloat] at precision 53 and
    maximal exponent 1024, so every arithmetic step below rounds exactly as
    the interpreter does. *)

From Stdlib Require Import ZArith Lia List Bool String Ascii.
From Stdlib Require Import QArith Qpower Lqa.
From Stdlib Require Import SpecFloat DecimalString Sorted.
Import ListNotations.

Local Open Scope Z_scope.

(** ** Python floats *)

Module PyFloat.

Definition prec : Z := 53.
Definition emax : Z := 1024.

Definition float : Type := spec_float.

Definition add : float -> float -> float := SFadd prec emax.
Definition mul : float -> float -> float := SFmul prec emax.
Definition fdiv : float -> float -> float := SFdiv prec emax.

Definition ltb : float -> float -> bool := SFltb.
Definition leb : float -> float -> bool := SFleb.
Definition eqb : float -> float -> bool := SFeqb.

(** [x > y] in Python is [y < x]. *)
Definition gtb (x y : float) : bool := ltb y x.

(** The float nearest to an integer (exact below 2^53). *)
Definition of_Z (n : Z) : float := binary_normalize prec emax n 0 false.

(** A decimal literal [num / den] with [den] a power of ten: the parser
    rounds the decimal to the nearest binary64 value, which is what the
    correctly rounded quotient of two exactly representable integers is. *)
Definition decimal (num den : Z) : float := fdiv (of_Z num) (of_Z den).

Definition zero : float := S754_zero false.

Definition is_zero (x : float) : bool :=
  match x with S754_zero _ => true | _ => false end.

(** Well-formed binary64 values: the mantissa is canonical and the
    exponent is in range.  Every value the interpreter holds is one. *)
Definition valid (x : float) : bool := valid_binary prec emax x.

(** Python's built-in [min(a, b)]: [b] when [b < a], otherwise [a]. *)
Definition py_min (a b : float) : float := if ltb b a then b else a.

(** *** Formatting with [:.1f]

    The exact binary value is rounded to one decimal, ties to even, and
    printed without exponent. *)

Definition round_half_even (num den : Z) : Z :=
  let q := num / den in
  let r := num mod den in
  match 2 * r ?= den with
  | Lt => q
  | Gt => q + 1
  | Eq => if Z.even q then q else q + 1
  end.

Definition tenths (m : positive) (e : Z) : Z :=
  match e with
  | Zneg p => round_half_even (10 * Zpos m) (2 ^ Zpos p)
  | _ => 10 * Zpos m * 2 ^ e
  end.

Definition digits_of (n : Z) : string :=
  NilZero.string_of_uint (N.to_uint (Z.to_N n)).

Definition sign_of (s : bool) : string := if s then "-"%string else ""%string.

Definition format_1f (x : float) : string :=
  match x with
  | S754_nan => "nan"
  | S754_infinity s => sign_of s ++ "inf"
  | S754_zero s => sign_of s ++ "0.0"
  | S754_finite s m e =>
      let t := tenths m e in
      sign_of s ++ digits_of (t / 10) ++ "." ++ digits_of (t mod 10)
  end%string.

End PyFloat.

Import PyFloat.

(** ** Exceptions and the error monad *)

Inductive exn : Type :=
| ZeroDivisionError
| KeyError.

Inductive result (A : Type) : Type :=
| OK (a : A)
| Raise (e : exn).

Arguments OK {A} a.
Arguments Raise {A} e.

Definition bind {A B : Type} (c : result A) (k : A -> result B) : result B :=
  match c with
  | OK a => k a
  | Raise e => Raise e
  end.

Notation "x <- c ;; k" := (bind c (fun x => k))
  (at level 61, c at next level, right associativity).
Notation "' p <- c ;; k" := (bind c (fun x => let 'p := x in k))
  (at level 61, p pattern, c at next level, right associativity).

(** [x / y] on floats raises [ZeroDivisionError] when [y] is zero. *)
Definition truediv (x y : float) : result float :=
  if is_zero y then Raise ZeroDivisionError else OK (fdiv x y).

(** ** Data model *)

Record CustomerStatistics : Type := {
  transaction_count : Z;
  avg_amount : float;
  max_amount : float;
  min_amount : float;
  total_amount : float
}.

(** One row of [customer_stats_overall]: the key and its statistics. *)
Record StatsRow : Type := {
  customer_id : Z;
  row_stats : CustomerStatistics
}.

Definition StatisticsTable : Type := list StatsRow.

(** What [model_data] holds under ['customer_stats_overall']: a table, or an
    object that has no ['customer_id'] column, on which the selection of
    lines 83-85 raises. *)
Inductive StatsSource : Type :=
| Frame (table : StatisticsTable)
| NoKeyColumn.

(** [model_data]: both entries may be missing ([dict.get] / [getattr] with a
    default). *)
Record ModelData : Type := {
  md_threshold : option float;
  customer_stats_overall : option StatsSource
}.

Record RiskAssessment : Type := {
  predicted_fraud : bool;
  fraud_score : float;
  threshold : float;
  customer_stats : CustomerStatistics;
  fraud_indicators : list string;
  amount_to_avg_ratio : option float;
  amount_to_max_ratio : option float
}.

(** ** Literals of the source *)

Definition f0_0 : float := zero.
Definition f0_1 : float := decimal 1 10.
Definition f0_2 : float := decimal 2 10.
Definition f0_3 : float := decimal 3 10.
Definition f0_4 : float := decimal 4 10.
Definition f0_5 : float := decimal 5 10.
Definition f0_8 : float := decimal 8 10.
Definition f1_0 : float := of_Z 1.
Definition f1_5 : float := decimal 15 10.
Definition f3_0 : float := of_Z 3.
Definition f5_0 : float := of_Z 5.
Definition f1000 : float := of_Z 1000.
Definition f5000 : float := of_Z 5000.

(** ** Statistics lookup (lines 79-108) *)

Definition zero_record : CustomerStatistics :=
  {| transaction_count := 0;
     avg_amount := zero;
     max_amount := zero;
     min_amount := zero;
     total_amount := zero |}.

(** [customer_stats_overall[customer_stats_overall['customer_id'] == id]]:
    the rows whose key equals the identifier, in table order. *)
Definition select_customer (src : StatsSource) (id : Z) : result StatisticsTable :=
  match src with
  | Frame table => OK (filter (fun row => customer_id row =? id) table)
  | NoKeyColumn => Raise KeyError
  end.

(** Lines 80-88: the selection runs under [try], and [except Exception]
    turns any failure into "no history". *)
Definition customer_history (stats : option StatsSource) (id : Z)
  : option StatisticsTable :=
  match stats with
  | None => None
  | Some src =>
      match select_customer src id with
      | OK rows => Some rows
      | Raise _ => None
      end
  end.

(** Lines 90-108. *)
Definition lookup (stats : option StatsSource) (id : Z) : CustomerStatistics :=
  match customer_history stats id with
  | None => zero_record
  | Some [] => zero_record
  | Some (row :: _) =>
      let s := row_stats row in
      {| transaction_count := transaction_count s;
         avg_amount := avg_amount s;
         max_amount := max_amount s;
         min_amount := min_amount s;
         total_amount := total_amount s |}
  end.

(** ** Risk scorer (lines 110-177) *)

Definition avg_indicator (ratio : float) : string :=
  ("Amount is " ++ format_1f ratio ++ "x higher than customer's average")%string.

Definition max_indicator (ratio : float) : string :=
  ("Amount is " ++ format_1f ratio ++ "x higher than customer's maximum")%string.

Definition new_customer_indicator : string := "High amount for a new customer".

Definition exceeds_max_indicator : string := "Amount exceeds customer's maximum".

(** Lines 113-123. *)
Definition avg_ratio_step (cs : CustomerStatistics) (amount : float)
    (indicators : list string) : result (float * list string) :=
  if gtb (avg_amount cs) zero then
    ratio <- truediv amount (avg_amount cs) ;;
    OK (ratio,
        if gtb ratio f5_0 then indicators ++ [avg_indicator ratio]
        else if gtb ratio f3_0 then indicators ++ [avg_indicator ratio]
        else indicators)
  else
    OK (zero,
        if gtb amount f1000 then indicators ++ [new_customer_indicator]
        else indicators).

(** Lines 125-132. *)
Definition max_ratio_step (cs : CustomerStatistics) (amount : float)
    (indicators : list string) : result (float * list string) :=
  if gtb (max_amount cs) zero then
    ratio <- truediv amount (max_amount cs) ;;
    OK (ratio,
        if gtb ratio f1_5 then indicators ++ [max_indicator ratio]
        else if gtb ratio f1_0 then indicators ++ [exceeds_max_indicator]
        else indicators)
  else
    OK (zero, indicators).

(** Lines 137-139. *)
Definition new_customer_risk (count : Z) (score : float) : float :=
  if count <? 1 then add score f0_5 else score.

(** Lines 141-145. *)
Definition avg_ratio_risk (ratio : float) (score : float) : float :=
  if gtb ratio f5_0 then add score f0_3
  else if gtb ratio f3_0 then add score f0_2
  else score.

(** Lines 147-150. *)
Definition max_ratio_risk (ratio : float) (score : float) : float :=
  if gtb ratio f1_5 then add score f0_4
  else if gtb ratio f1_0 then add score f0_2
  else score.

(** Lines 152-156. *)
Definition amount_risk (amount : float) (score : float) : float :=
  if gtb amount f5000 then add score f0_3
  else if gtb amount f1000 then add score f0_1
  else score.

(** The accumulated score before the cap (lines 135-156). *)
Definition raw_score (count : Z) (avg_ratio max_ratio amount : float) : float :=
  amount_risk amount
    (max_ratio_risk max_ratio
       (avg_ratio_risk avg_ratio
          (new_customer_risk count f0_0))).

(** Lines 161-163. *)
Definition loyalty_discount (count : Z) (score : float) : float :=
  if count >? 10 then mul score f0_8 else score.

Definition score (cs : CustomerStatistics) (amount thr : float)
  : result RiskAssessment :=
  '(avg_ratio, indicators) <- avg_ratio_step cs amount [] ;;
  '(max_ratio, indicators) <- max_ratio_step cs amount indicators ;;
  let fs := raw_score (transaction_count cs) avg_ratio max_ratio amount in
  let fs := py_min fs f1_0 in
  let fs := loyalty_discount (transaction_count cs) fs in
  OK {| predicted_fraud := gtb fs thr;
        fraud_score := fs;
        threshold := thr;
        customer_stats := cs;
        fraud_indicators := indicators;
        amount_to_avg_ratio :=
          if gtb (avg_amount cs) zero then Some avg_ratio else None;
        amount_to_max_ratio :=
          if gtb (max_amount cs) zero then Some max_ratio else None |}.

(** ** The whole of [analyze_transaction] *)

Definition default_threshold : float := f0_5.

Definition analyze_transaction (id : Z) (amount : float) (model_data : ModelData)
  : result RiskAssessment :=
  let thr := match md_threshold model_data with
             | Some t => t
             | None => default_threshold
             end in
  score (lookup (customer_stats_overall model_data) id) amount thr.

(** ** The scorer in closed form

    Both divisions sit under a guard that makes the denominator positive, so
    the monadic scorer always returns; the definitions below name the values
    it returns. *)

Definition avg_ratio (cs : CustomerStatistics) (amount : float) : float :=
  if gtb (avg_amount cs) zero then fdiv amount (avg_amount cs) else zero.

Definition max_ratio (cs : CustomerStatistics) (amount : float) : float :=
  if gtb (max_amount cs) zero then fdiv amount (max_amount cs) else zero.

Definition avg_indicators (cs : CustomerStatistics) (amount : float) : list string :=
  if gtb (avg_amount cs) zero then
    if gtb (avg_ratio cs amount) f5_0 then [avg_indicator (avg_ratio cs amount)]
    else if gtb (avg_ratio cs amount) f3_0 then [avg_indicator (avg_ratio cs amount)]
    else []
  else if gtb amount f1000 then [new_customer_indicator]
  else [].

Definition max_indicators (cs : CustomerStatistics) (amount : float) : list string :=
  if gtb (max_amount cs) zero then
    if gtb (max_ratio cs amount) f1_5 then [max_indicator (max_ratio cs amount)]
    else if gtb (max_ratio cs amount) f1_0 then [exceeds_max_indicator]
    else []
  else [].

Definition capped_score (cs : CustomerStatistics) (amount : float) : float :=
  py_min
    (raw_score (transaction_count cs) (avg_ratio cs amount) (max_ratio cs amount) amount)
    f1_0.

Definition final_score (cs : CustomerStatistics) (amount : float) : float :=
  loyalty_discount (transaction_count cs) (capped_score cs amount).

Definition assessment (cs : CustomerStatistics) (amount thr : float) : RiskAssessment :=
  {| predicted_fraud := gtb (final_score cs amount) thr;
     fraud_score := final_score cs amount;
     threshold := thr;
     customer_stats := cs;
     fraud_indicators := avg_indicators cs amount ++ max_indicators cs amount;
     amount_to_avg_ratio :=
       if gtb (avg_amount cs) zero then Some (avg_ratio cs amount) else None;
     amount_to_max_ratio :=
       if gtb (max_amount cs) zero then Some (max_ratio cs amount) else None |}.

(** ** The four contributions, as the design document words them

    Each rule contributes a term (zero when the rule does not fire) and the
    raw score is their sum, accumulated from 0.0 in source order. *)

Definition new_customer_term (count : Z) : float :=
  if count <? 1 then f0_5 else f0_0.

Definition avg_ratio_term (ratio : float) : float :=
  if gtb ratio f5_0 then f0_3 else if gtb ratio f3_0 then f0_2 else f0_0.

Definition max_ratio_term (ratio : float) : float :=
  if gtb ratio f1_5 then f0_4 else if gtb ratio f1_0 then f0_2 else f0_0.

Definition amount_term (amount : float) : float :=
  if gtb amount f5000 then f0_3 else if gtb amount f1000 then f0_1 else f0_0.

Definition contributions_sum (count : Z) (r_avg r_max amount : float) : float :=
  add (add (add (add f0_0 (new_customer_term count)) (avg_ratio_term r_avg))
         (max_ratio_term r_max))
    (amount_term amount).

(** ** Recognising the average-ratio indicator *)

Definition is_avg_ratio_indicator (s : string) : Prop :=
  exists ratio_text : string,
    s = ("Amount is " ++ ratio_text ++ "x higher than customer's average")%string.

Fixpoint last_ascii (s : string) (d : ascii) : ascii :=
  match s with
  | EmptyString => d
  | String c s' => last_ascii s' c
  end.

(** ** Scenarios *)

Definition scenario_B : CustomerStatistics :=
  {| transaction_count := 20;
     avg_amount := of_Z 100;
     max_amount := of_Z 200;
     min_amount := of_Z 10;
     total_amount := of_Z 2000 |}.

Definition scenario_C_stats : CustomerStatistics :=
  {| transaction_count := 20;
     avg_amount := of_Z 500;
     max_amount := of_Z 1000;
     min_amount := of_Z 100;
     total_amount := of_Z 10000 |}.

(** The same customer with other minimum and total amounts. *)
Definition scenario_B_other : CustomerStatistics :=
  {| transaction_count := 20;
     avg_amount := of_Z 100;
     max_amount := of_Z 200;
     min_amount := of_Z 55;
     total_amount := of_Z 7 |}.

(** A new customer whose record carries a (stale) maximum. *)
Definition new_customer_with_max : CustomerStatistics :=
  {| transaction_count := 0;
     avg_amount := zero;
     max_amount := of_Z 100;
     min_amount := zero;
     total_amount := zero |}.

(** ** Real values of floats and the rounding of a quotient

    The order of the quotients [amount / denominator] is studied on exact
    rational values.  [F2Q n e] is the value [n * 2^e]; a pair is canonical
    when its exponent is the one binary64 gives to a mantissa of that size. *)

Definition bpow (e : Z) : Q := (2 ^ e)%Q.

Definition F2Q (n e : Z) : Q := (inject_Z n * bpow e)%Q.

Definition canonical (n e : Z) : Prop := e = fexp prec emax (Zdigits2 n + e).

(** The position of [y] in the cell [[m * 2^e, (m + 1) * 2^e)] that the
    round and sticky bits of a shift record describe. *)
Definition located (y : Q) (e : Z) (mrs : shr_record) : Prop :=
  0 <= shr_m mrs /\
  match shr_r mrs, shr_s mrs with
  | false, false => (y == F2Q (shr_m mrs) e)%Q
  | false, true =>
      (F2Q (shr_m mrs) e < y /\ 2 * y < 2 * F2Q (shr_m mrs) e + bpow e)%Q
  | true, false => (2 * y == 2 * F2Q (shr_m mrs) e + bpow e)%Q
  | true, true =>
      (2 * F2Q (shr_m mrs) e + bpow e < 2 * y /\ y < F2Q (shr_m mrs) e + bpow e)%Q
  end.

(** The number of digits of the mantissa plus the exponent stays [K] while
    the mantissa is shifted right, until the mantissa vanishes. *)
Definition magnitude (K e : Z) (mrs : shr_record) : Prop :=
  (0 < shr_m mrs -> Zdigits2 (shr_m mrs) + e = K) /\ (shr_m mrs = 0 -> K <= e).

(** The last step of [binary_round_aux] for a non-negative result: zero, a
    finite float, or infinity on overflow. *)
Definition finish (m e : Z) : float :=
  match m with
  | Z0 => S754_zero false
  | Zpos p => if e <=? emax - prec then S754_finite false p e else S754_infinity false
  | Zneg _ => S754_nan
  end.

(** [m * 2^e] is an end of a canonical cell that holds [y], and the nearer
    one. *)
Definition rounds_to (y : Q) (m e : Z) : Prop :=
  exists qg g,
    0 <= qg /\ canonical qg g /\
    (F2Q qg g <= y /\ y < F2Q (qg + 1) g)%Q /\
    0 <= m /\ canonical m e /\
    ((F2Q m e == F2Q qg g /\ 2 * y <= 2 * F2Q qg g + bpow g)%Q \/
     (F2Q m e == F2Q (qg + 1) g /\ 2 * F2Q qg g + bpow g <= 2 * y)%Q).

(** ** Bands

    Each rule of the scorer reads its input only through two thresholds; the
    band of a value is the number of thresholds it exceeds. *)

Definition band (lo hi x : float) : nat :=
  if gtb x hi then 2%nat else if gtb x lo then 1%nat else 0%nat.

Definition avg_rule (b : nat) (score : float) : float :=
  match b with
  | O => score
  | S O => add score f0_2
  | _ => add score f0_3
  end.

Definition max_rule (b : nat) (score : float) : float :=
  match b with
  | O => score
  | S O => add score f0_2
  | _ => add score f0_4
  end.

Definition amount_rule (b : nat) (score : float) : float :=
  match b with
  | O => score
  | S O => add score f0_1
  | _ => add score f0_3
  end.

Definition banded_score (is_new is_loyal : bool) (b_avg b_max b_amt : nat) : float :=
  let s := if is_new then add f0_0 f0_5 else f0_0 in
  let s := py_min (amount_rule b_amt (max_rule b_max (avg_rule b_avg s))) f1_0 in
  if is_loyal then mul s f0_8 else s.

(** ** Formatting with [:.2f] and [str]

    [format_f k] prints with [k] decimals, as [format_1f] does with one. *)

Definition scaled_round (k : nat) (m : positive) (e : Z) : Z :=
  match e with
  | Zneg p => round_half_even (10 ^ Z.of_nat k * Zpos m) (2 ^ Zpos p)
  | _ => 10 ^ Z.of_nat k * Zpos m * 2 ^ e
  end.

Fixpoint zeros (n : nat) : string :=
  match n with
  | O => EmptyString
  | S n' => String "0" (zeros n')
  end.

Definition zero_pad (k : nat) (s : string) : string :=
  (zeros (k - String.length s) ++ s)%string.

Definition format_f (k : nat) (x : float) : string :=
  match x with
  | S754_nan => "nan"
  | S754_infinity s => sign_of s ++ "inf"
  | S754_zero s => sign_of s ++ "0." ++ zeros k
  | S754_finite s m e =>
      let t := scaled_round k m e in
      sign_of s ++ digits_of (t / 10 ^ Z.of_nat k) ++ "." ++
        zero_pad k (digits_of (t mod 10 ^ Z.of_nat k))
  end%string.

Definition format_2f : float -> string := format_f 2.

(** [str] of an integer. *)
Definition str_int (n : Z) : string :=
  if n <? 0 then ("-" ++ digits_of (- n))%string else digits_of n.

(** ** The Streamlit page

    The presentation code is modelled by the sequence of Streamlit calls it
    makes.  Strings are the UTF-8 bytes of the source literals. *)

Definition dquote : string := String (ascii_of_nat 34) EmptyString.

Definition newline : string := String (ascii_of_nat 10) EmptyString.

Inductive metric_value : Type :=
| MInt (n : Z)
| MText (s : string).

Inductive element : Type :=
| Spinner (text : string)
| Markdown (body : string) (unsafe_allow_html : bool)
| Write (body : string)
| ErrorBox (body : string)
| WarningBox (body : string)
| SuccessBox (body : string)
| InfoBox (body : string)
| Columns (n : nat)
| Metric (column : nat) (label : string) (value : metric_value)
| ProgressCreate (percent : Z)
| StatusCreate
| ProgressSet (value : float)
| StatusText (body : string)
| Sleep (seconds : float)
| ProgressEmpty
| StatusEmpty.

(** *** [load_model] (lines 52-67)

    What the file system and [joblib.load] do is an input: the file is
    missing, it loads to some object, or loading raises with a message.
    This is the body of the function; [st.cache_resource] keeps its result
    for the later runs of the script. *)

Inductive ModelFile : Type :=
| FileMissing
| FileLoads (model_data : ModelData)
| FileLoadFails (message : string).

Definition default_model_data : ModelData :=
  {| md_threshold := Some f0_5; customer_stats_overall := None |}.

Definition load_model (file : ModelFile) : ModelData * list element :=
  match file with
  | FileLoads model_data =>
      (model_data, [SuccessBox "Model loaded successfully!"])
  | FileMissing =>
      (default_model_data,
       [WarningBox "Model file not found. Using default values for demonstration."])
  | FileLoadFails message =>
      (default_model_data, [ErrorBox ("Error loading model: " ++ message)])
  end%string.

(** *** The message of [analyze_transaction] (lines 86-87) *)

Definition exn_message (e : exn) : string :=
  match e with
  | ZeroDivisionError => "float division by zero"
  | KeyError => "'customer_id'"
  end.

Definition history_error (stats : option StatsSource) (id : Z) : list element :=
  match stats with
  | None => []
  | Some source =>
      match select_customer source id with
      | OK _ => []
      | Raise e => [ErrorBox ("Error getting customer history: " ++ exn_message e)]
      end
  end%string.

(** *** [display_result] (lines 180-193) *)

Definition fraud_banner : string := "⚠️ **Potential Fraud Detected!**".

Definition legitimate_banner : string := "✅ **Transaction Appears Legitimate**".

Definition display_result (analysis_result : RiskAssessment) : list element :=
  if predicted_fraud analysis_result then
    [Markdown ("<div class=" ++ dquote ++ "result-box fraud" ++ dquote ++ ">") true;
     ErrorBox fraud_banner;
     Write "This transaction has been flagged as potentially fraudulent and should be reviewed.";
     Markdown "</div>" true]%string
  else
    [Markdown ("<div class=" ++ dquote ++ "result-box legitimate" ++ dquote ++ ">") true;
     SuccessBox legitimate_banner;
     Write "This transaction appears to be legitimate based on our analysis.";
     Markdown "</div>" true]%string.

(** *** [simulate_processing] (lines 196-216) *)

Definition stages : list string :=
  ["Initializing fraud detection system...";
   "Analyzing transaction patterns...";
   "Comparing with historical data...";
   "Calculating fraud indicators...";
   "Finalizing fraud assessment..."]%string.

(** [(i + 1) / len(stages)] on integers: the correctly rounded quotient. *)
Definition progress_value (i n : Z) : float := fdiv (of_Z (i + 1)) (of_Z n).

(** The loop of lines 208-213, from index [i] on, over a list of [n] stages. *)
Fixpoint progress_loop (n i : Z) (remaining : list string) : list element :=
  match remaining with
  | [] => []
  | stage :: rest =>
      ProgressSet (progress_value i n) :: StatusText stage :: Sleep f0_5
        :: progress_loop n (i + 1) rest
  end.

Definition simulate_processing_of (stage_list : list string) : list element :=
  [ProgressCreate 0; StatusCreate]
    ++ progress_loop (Z.of_nat (List.length stage_list)) 0 stage_list
    ++ [ProgressEmpty; StatusEmpty].

Definition simulate_processing : list element := simulate_processing_of stages.

(** *** The handler of the button (lines 257-317) *)

(** Truth value of an optional ratio: [None] and zero are false. *)
Definition truthy (ratio : option float) : bool :=
  match ratio with
  | None => false
  | Some x => negb (is_zero x)
  end.

Definition money (x : float) : metric_value := MText ("$" ++ format_2f x)%string.

Definition ratio_metric (column : nat) (label : string) (ratio : option float)
  : list element :=
  if truthy ratio then
    match ratio with
    | Some x => [Metric column label (MText (format_2f x ++ "x")%string)]
    | None => []
    end
  else [].

Definition history_section (analysis_result : RiskAssessment) : list element :=
  let cs := customer_stats analysis_result in
  if transaction_count cs >? 0 then
    [Write "**Customer History:**";
     Columns 3;
     Metric 1 "Previous Transactions" (MInt (transaction_count cs));
     Metric 1 "Total Spent" (money (total_amount cs));
     Metric 2 "Average Amount" (money (avg_amount cs))]%string
    ++ ratio_metric 2 "Amount/Avg Ratio" (amount_to_avg_ratio analysis_result)
    ++ [Metric 3 "Maximum Amount" (money (max_amount cs))]%string
    ++ ratio_metric 3 "Amount/Max Ratio" (amount_to_max_ratio analysis_result)
  else
    [InfoBox "No transaction history for this customer."].

Definition bullet (indicator : string) : string := ("• " ++ indicator)%string.

Definition indicator_section (analysis_result : RiskAssessment) : list element :=
  match fraud_indicators analysis_result with
  | [] => [SuccessBox "No risk indicators detected."]
  | indicators =>
      Write "**Risk Indicators:**" :: map (fun i => WarningBox (bullet i)) indicators
  end.

Definition recommended_actions : string :=
  (newline ++ "            * Contact the account holder immediately" ++ newline ++ "            * Temporarily freeze the account" ++ newline ++ "            * Verify recent transactions with the customer" ++ newline ++ "            * Request additional verification for future transactions" ++ newline ++ "            ")%string.

Definition actions_section (analysis_result : RiskAssessment) : list element :=
  if predicted_fraud analysis_result then
    [Markdown "### Recommended Actions" false;
     Markdown recommended_actions false]
  else
    [Markdown "" false].

Definition check_transaction (file : ModelFile) (id : Z) (amount : float)
  : result (list element) :=
  let '(model_data, load_messages) := load_model file in
  analysis_result <- analyze_transaction id amount model_data ;;
  OK ([Spinner "Analyzing transaction..."]
      ++ load_messages
      ++ simulate_processing
      ++ history_error (customer_stats_overall model_data) id
      ++ [Markdown ("<h2 class=" ++ dquote ++ "sub-header" ++ dquote ++ ">Analysis Result</h2>") true;
          Write "**Transaction Summary:**";
          Write ("* Customer ID: " ++ str_int id);
          Write ("* Amount: $" ++ format_2f amount)]%string
      ++ display_result analysis_result
      ++ [Markdown "### Detailed Analysis" false]
      ++ history_section analysis_result
      ++ indicator_section analysis_result
      ++ actions_section analysis_result).

(** The values the loop of [simulate_processing] sets the bar to, from index
    [i] on, for [len] more stages out of [n]. *)
Fixpoint values_from (n i : Z) (len : nat) : list float :=
  match len with
  | O => []
  | S len' => progress_value i n :: values_from n (i + 1) len'
  end.

(** What [st.progress] accepts for a float: a value of [[0.0, 1.0]]. *)
Definition progress_in_range (v : float) : Prop :=
  leb zero v = true /\ leb v f1_0 = true.

(** The elements [simulate_processing] emits. *)
Definition is_processing_element (e : element) : bool :=
  match e with
  | ProgressCreate _ | StatusCreate | ProgressSet _ | StatusText _ | Sleep _
  | ProgressEmpty | StatusEmpty => true
  | _ => false
  end.

(** The page, with the model and the assessment it was built from. *)
Definition page_from (file : ModelFile) (id : Z) (amount : float)
    (page : list element) (r : RiskAssessment) : Prop :=
  check_transaction file id amount = OK page /\
  analyze_transaction id amount (fst (load_model file)) = OK r.

(** The warnings of a page, in order. *)
Definition warnings (page : list element) : list string :=
  flat_map (fun e => match e with WarningBox s => [s] | _ => [] end) page.

(** The values the progress bar is set to, in order. *)
Definition progress_values (page : list element) : list float :=
  flat_map (fun e => match e with ProgressSet v => [v] | _ => [] end) page.

(** The total time slept, as the list of the sleeps. *)
Definition sleeps (page : list element) : list float :=
  flat_map (fun e => match e with Sleep s => [s] | _ => [] end) page.

(** A loaded object without the key column. *)
Definition broken_model : ModelData :=
  {| md_threshold := None; customer_stats_overall := Some NoKeyColumn |}.

(** A loaded model for the examples: two rows for customer 7, one for 9. *)
Definition sample_table : StatisticsTable :=
  [{| customer_id := 7; row_stats := scenario_B |};
   {| customer_id := 9; row_stats := scenario_C_stats |};
   {| customer_id := 7; row_stats := scenario_B_other |}].

Definition sample_model : ModelData :=
  {| md_threshold := Some f0_5; customer_stats_overall := Some (Frame sample_table) |}.

(** * Properties *)

(** ** The guards exclude a zero denominator *)

Lemma gtb_zero_not_zero (d : float) : gtb d zero = true -> is_zero d = false.
Proof. destruct d as [s | s | | s m e]; simpl; try reflexivity; discriminate. Qed.

Lemma truediv_guarded (x d : float) :
  gtb d zero = true -> truediv x d = OK (fdiv x d).
Proof.
  intros Hd. unfold truediv. now rewrite (gtb_zero_not_zero d Hd).
Qed.

Lemma avg_ratio_step_OK (cs : CustomerStatistics) (amount : float) (l : list string) :
  avg_ratio_step cs amount l = OK (avg_ratio cs amount, l ++ avg_indicators cs amount).
Proof.
  unfold avg_ratio_step, avg_indicators, avg_ratio.
  destruct (gtb (avg_amount cs) zero) eqn:Hg.
  - rewrite (truediv_guarded _ _ Hg). simpl.
    destruct (gtb (fdiv amount (avg_amount cs)) f5_0);
      [reflexivity | destruct (gtb (fdiv amount (avg_amount cs)) f3_0)];
      now rewrite ?app_nil_r.
  - destruct (gtb amount f1000); now rewrite ?app_nil_r.
Qed.

Lemma max_ratio_step_OK (cs : CustomerStatistics) (amount : float) (l : list string) :
  max_ratio_step cs amount l = OK (max_ratio cs amount, l ++ max_indicators cs amount).
Proof.
  unfold max_ratio_step, max_indicators, max_ratio.
  destruct (gtb (max_amount cs) zero) eqn:Hg.
  - rewrite (truediv_guarded _ _ Hg). simpl.
    destruct (gtb (fdiv amount (max_amount cs)) f1_5);
      [reflexivity | destruct (gtb (fdiv amount (max_amount cs)) f1_0)];
      now rewrite ?app_nil_r.
  - now rewrite app_nil_r.
Qed.

Lemma score_OK (cs : CustomerStatistics) (amount thr : float) :
  score cs amount thr = OK (assessment cs amount thr).
Proof.
  unfold score. rewrite avg_ratio_step_OK. simpl.
  rewrite max_ratio_step_OK. reflexivity.
Qed.

(** ** Comparisons *)

Lemma SFcompare_antisym (x y : float) :
  SFcompare y x = option_map CompOpp (SFcompare x y).
Proof.
  destruct x as [sx | sx | | sx mx ex], y as [sy | sy | | sy my ey];
    try destruct sx; try destruct sy; simpl; try reflexivity;
    rewrite (Z.compare_antisym ex ey);
    destruct (ex ?= ey); simpl; try reflexivity;
    now rewrite ?CompOpp_involutive, ?Pos.compare_cont_antisym.
Qed.

Lemma eqb_not_gtb (x y : float) : eqb x y = true -> gtb x y = false.
Proof.
  unfold eqb, gtb, ltb, SFeqb, SFltb. rewrite (SFcompare_antisym x y).
  destruct (SFcompare x y) as [[ | | ] | ]; simpl; congruence.
Qed.

Lemma mul_comm (x y : float) : mul x y = mul y x.
Proof.
  unfold mul.
  destruct x as [sx | sx | | sx mx ex], y as [sy | sy | | sy my ey]; simpl;
    try reflexivity; rewrite ?(xorb_comm sx sy); try reflexivity.
  now rewrite (Pos.mul_comm mx my), (Z.add_comm ex ey).
Qed.

(** ** Case analysis on the rules of the scorer *)

Ltac split_rules :=
  repeat match goal with
         | |- context [if ?b then _ else _] =>
             lazymatch b with
             | context [if _ then _ else _] => fail
             | _ => destruct b eqn:?
             end
         end.

Lemma final_score_range (count : Z) (r1 r2 amount : float) :
  let s := loyalty_discount count (py_min (raw_score count r1 r2 amount) f1_0) in
  leb zero s = true /\ leb s f1_0 = true.
Proof.
  unfold loyalty_discount, raw_score, amount_risk, max_ratio_risk,
    avg_ratio_risk, new_customer_risk.
  split_rules; vm_compute; split; reflexivity.
Qed.

(** ** Strings *)

Lemma last_ascii_app (a s : string) (d : ascii) :
  last_ascii (a ++ s) d = last_ascii s (last_ascii a d).
Proof.
  revert d. induction a as [ | c a IH]; intros d; simpl; [reflexivity | apply IH].
Qed.

Lemma avg_ratio_indicator_last (s : string) :
  is_avg_ratio_indicator s -> last_ascii s " "%char = "e"%char.
Proof.
  intros [t ->]. rewrite last_ascii_app.
  rewrite (last_ascii_app t). reflexivity.
Qed.

Lemma max_indicator_not_avg (ratio : float) :
  ~ is_avg_ratio_indicator (max_indicator ratio).
Proof.
  intros H. apply avg_ratio_indicator_last in H.
  unfold max_indicator in H. rewrite last_ascii_app in H.
  rewrite (last_ascii_app (format_1f ratio)) in H. discriminate H.
Qed.

Lemma new_customer_indicator_not_avg :
  ~ is_avg_ratio_indicator new_customer_indicator.
Proof. intros [t H]. discriminate H. Qed.

Lemma exceeds_max_indicator_not_avg :
  ~ is_avg_ratio_indicator exceeds_max_indicator.
Proof. intros [t H]. discriminate H. Qed.

(** ** The raw score is the sum of the four contributions *)

Lemma raw_score_sum (count : Z) (r_avg r_max amount : float) :
  raw_score count r_avg r_max amount = contributions_sum count r_avg r_max amount.
Proof.
  unfold raw_score, contributions_sum, amount_risk, max_ratio_risk, avg_ratio_risk,
    new_customer_risk, new_customer_term, avg_ratio_term, max_ratio_term, amount_term.
  split_rules; vm_compute; reflexivity.
Qed.


(** ** Powers of two and values *)

Lemma bpow_pos e : (0 < bpow e)%Q.
Proof. apply Qpower_0_lt. reflexivity. Qed.

Lemma bpow_add a b : (bpow (a + b) == bpow a * bpow b)%Q.
Proof. apply Qpower_plus. discriminate. Qed.

Lemma bpow_succ e : (bpow (e + 1) == 2 * bpow e)%Q.
Proof. rewrite bpow_add. unfold bpow at 2. simpl. ring. Qed.

Lemma bpow_Z k : 0 <= k -> (bpow k == inject_Z (2 ^ k))%Q.
Proof. intros H. unfold bpow. now rewrite Zpower_Qpower. Qed.

Lemma bpow_ge_1 k : 0 <= k -> (1 <= bpow k)%Q.
Proof.
  intros H. rewrite (bpow_Z k H).
  change 1%Q with (inject_Z 1). rewrite <- Zle_Qle.
  pose proof (Z.pow_pos_nonneg 2 k). lia.
Qed.

Lemma bpow_le a b : a <= b -> (bpow a <= bpow b)%Q.
Proof.
  intros H. replace b with (a + (b - a)) by lia. rewrite bpow_add.
  pose proof (bpow_ge_1 (b - a) ltac:(lia)). pose proof (bpow_pos a). nra.
Qed.

Lemma F2Q_le_mantissa n m e : n <= m -> (F2Q n e <= F2Q m e)%Q.
Proof.
  intros H. unfold F2Q. pose proof (bpow_pos e).
  rewrite Zle_Qle in H. nra.
Qed.

Lemma F2Q_lt_mantissa n m e : n < m -> (F2Q n e < F2Q m e)%Q.
Proof.
  intros H. unfold F2Q. pose proof (bpow_pos e).
  rewrite Zlt_Qlt in H. nra.
Qed.

Lemma F2Q_succ n e : (F2Q (n + 1) e == F2Q n e + bpow e)%Q.
Proof. unfold F2Q. rewrite inject_Z_plus. ring. Qed.

Lemma F2Q_shift n e k : 0 <= k -> (F2Q n (e + k) == F2Q (n * 2 ^ k) e)%Q.
Proof.
  intros H. unfold F2Q. rewrite inject_Z_mult, Z.add_comm, bpow_add, (bpow_Z k H). ring.
Qed.

(** ** Number of binary digits *)

Lemma digits2_pos_bounds p :
  2 ^ (Zpos (digits2_pos p) - 1) <= Zpos p < 2 ^ Zpos (digits2_pos p).
Proof.
  induction p as [p IH | p IH | ]; simpl digits2_pos.
  - rewrite Pos2Z.inj_succ. replace (Z.succ (Zpos (digits2_pos p)) - 1) with (Z.succ (Zpos (digits2_pos p) - 1)) by lia.
    rewrite !Z.pow_succ_r by lia. lia.
  - rewrite Pos2Z.inj_succ. replace (Z.succ (Zpos (digits2_pos p)) - 1) with (Z.succ (Zpos (digits2_pos p) - 1)) by lia.
    rewrite !Z.pow_succ_r by lia. lia.
  - simpl. lia.
Qed.

Lemma Zdigits2_nonneg n : 0 <= Zdigits2 n.
Proof. destruct n; simpl; lia. Qed.

Lemma Zdigits2_bounds n : 0 < n -> 2 ^ (Zdigits2 n - 1) <= n < 2 ^ Zdigits2 n.
Proof. destruct n; try lia. intros _. apply digits2_pos_bounds. Qed.

(** ** Canonical pairs

    Canonical pairs are ordered by exponent first, and no canonical value
    lies strictly inside a cell of a canonical grid. *)

Lemma fexp_eq k : fexp prec emax k = Z.max (k - 53) (-1074).
Proof. reflexivity. Qed.

Lemma canonical_emin n e : canonical n e -> -1074 <= e.
Proof. unfold canonical. rewrite fexp_eq. lia. Qed.

Lemma canonical_lt_2p53 n e : 0 <= n -> canonical n e -> n < 2 ^ 53.
Proof.
  intros Hn Hc. destruct (Z.eq_dec n 0) as [-> | Hnz]; [reflexivity | ].
  unfold canonical in Hc. rewrite fexp_eq in Hc.
  pose proof (Zdigits2_bounds n ltac:(lia)) as [_ Hhi].
  assert (2 ^ Zdigits2 n <= 2 ^ 53) by (apply Z.pow_le_mono_r; lia). lia.
Qed.

Lemma canonical_normal n e : 0 <= n -> canonical n e -> -1074 < e -> 2 ^ 52 <= n.
Proof.
  intros Hn Hc He. unfold canonical in Hc. rewrite fexp_eq in Hc.
  assert (Hd : Zdigits2 n = 53) by lia.
  destruct (Z.eq_dec n 0) as [-> | Hnz]; [discriminate Hd | ].
  pose proof (Zdigits2_bounds n ltac:(lia)) as [Hlo _].
  now rewrite Hd in Hlo.
Qed.

Lemma canonical_exp_lt n1 e1 n2 e2 :
  0 <= n1 -> 0 <= n2 -> canonical n1 e1 -> canonical n2 e2 -> e1 < e2 ->
  (F2Q n1 e1 < F2Q n2 e2)%Q.
Proof.
  intros H1 H2 C1 C2 He.
  pose proof (canonical_lt_2p53 n1 e1 H1 C1) as B1.
  pose proof (canonical_emin n1 e1 C1) as E1.
  pose proof (canonical_normal n2 e2 H2 C2 ltac:(lia)) as B2.
  pose proof (bpow_le (e1 + 1) e2 ltac:(lia)) as Hb. rewrite bpow_succ in Hb.
  pose proof (bpow_pos e1) as P1.
  unfold F2Q. rewrite Zlt_Qlt in B1. rewrite Zle_Qle in B2.
  change (inject_Z (2 ^ 53)) with (9007199254740992 # 1)%Q in B1.
  change (inject_Z (2 ^ 52)) with (4503599627370496 # 1)%Q in B2.
  set (x := inject_Z n1) in *. set (y := inject_Z n2) in *.
  set (u := bpow e1) in *. set (v := bpow e2) in *.
  assert (x * u < 9007199254740992 * u)%Q by nra.
  assert (4503599627370496 * v <= y * v)%Q by nra.
  lra.
Qed.

Lemma canonical_gap n e q g :
  0 <= n -> 0 <= q -> canonical n e -> canonical q g ->
  (F2Q n e <= F2Q q g)%Q \/ (F2Q (q + 1) g <= F2Q n e)%Q.
Proof.
  intros Hn Hq Cn Cq.
  destruct (Z_lt_le_dec e g) as [L | G].
  - left. apply Qlt_le_weak. now apply canonical_exp_lt.
  - replace e with (g + (e - g)) by lia.
    rewrite (F2Q_shift n g (e - g)) by lia.
    destruct (Z_le_gt_dec (n * 2 ^ (e - g)) q) as [A | B].
    + left. now apply F2Q_le_mantissa.
    + right. apply F2Q_le_mantissa. lia.
Qed.

(** ** Shifting a mantissa right

    [shr_1] halves the mantissa and keeps track, in the round and sticky
    bits, of where the exact value lies. *)

Lemma F2Q_even n e : (F2Q (2 * n) e == F2Q n (e + 1))%Q.
Proof. unfold F2Q. rewrite inject_Z_mult, bpow_succ. change (inject_Z 2) with 2%Q. ring. Qed.

Lemma F2Q_odd n e : (F2Q (2 * n + 1) e == F2Q n (e + 1) + bpow e)%Q.
Proof. rewrite F2Q_succ, F2Q_even. reflexivity. Qed.

Lemma F2Q_0 e : (F2Q 0 e == 0)%Q.
Proof. unfold F2Q. change (inject_Z 0) with 0%Q. ring. Qed.

Lemma shr_1_located y e mrs : located y e mrs -> located y (e + 1) (shr_1 mrs).
Proof.
  destruct mrs as [m r s]. unfold located. simpl. intros [Hm H].
  pose proof (bpow_pos e) as P. pose proof (bpow_succ e) as S.
  destruct m as [ | [p | p | ] | p]; try lia; simpl; (split; [lia | ]).
  - pose proof (F2Q_0 e) as Hz0. pose proof (F2Q_0 (e + 1)) as Hz1.
    destruct r, s; simpl; lra.
  - pose proof (F2Q_odd (Zpos p) e) as O. change (2 * Zpos p + 1) with (Zpos p~1) in O.
    destruct r, s; simpl; lra.
  - pose proof (F2Q_even (Zpos p) e) as E. change (2 * Zpos p) with (Zpos p~0) in E.
    destruct r, s; simpl; lra.
  - pose proof (F2Q_odd 0 e) as O. change (2 * 0 + 1) with 1 in O.
    pose proof (F2Q_0 (e + 1)) as Hz1.
    destruct r, s; simpl; lra.
Qed.

Lemma Zdigits2_xO p : Zdigits2 (Zpos p~0) = Zdigits2 (Zpos p) + 1.
Proof. cbn [Zdigits2 digits2_pos]. lia. Qed.

Lemma Zdigits2_xI p : Zdigits2 (Zpos p~1) = Zdigits2 (Zpos p) + 1.
Proof. cbn [Zdigits2 digits2_pos]. lia. Qed.

Lemma shr_1_magnitude K e mrs :
  0 <= shr_m mrs -> magnitude K e mrs -> magnitude K (e + 1) (shr_1 mrs).
Proof.
  destruct mrs as [m r s]. unfold magnitude. cbn [shr_m shr_1]. intros Hm [Hp Hz].
  destruct m as [ | [p | p | ] | p]; try lia; cbn [shr_m]; split; intros; try lia.
  - specialize (Hp ltac:(lia)). rewrite Zdigits2_xI in Hp. lia.
  - specialize (Hp ltac:(lia)). rewrite Zdigits2_xO in Hp. lia.
  - specialize (Hp ltac:(lia)). change (Zdigits2 1) with 1 in Hp. lia.
Qed.

Lemma iter_pos_invariant {A : Type} (f : A -> A) (P : Z -> A -> Prop) :
  (forall e x, P e x -> P (e + 1) (f x)) ->
  forall p e x, P e x -> P (e + Zpos p) (iter_pos f p x).
Proof.
  intros Hstep. induction p as [p IH | p IH | ]; intros e x H; simpl.
  - replace (e + Zpos p~1) with (e + 1 + Zpos p + Zpos p) by lia.
    apply IH, IH, Hstep, H.
  - replace (e + Zpos p~0) with (e + Zpos p + Zpos p) by lia.
    apply IH, IH, H.
  - apply Hstep, H.
Qed.

Lemma shr_spec y K mrs e n :
  located y e mrs -> magnitude K e mrs ->
  let '(mrs', e') := shr mrs e n in
  located y e' mrs' /\ magnitude K e' mrs' /\ e' = e + Z.max 0 n.
Proof.
  intros HL HM. unfold shr. destruct n as [ | p | p]; simpl.
  - repeat split; try apply HL; try apply HM; lia.
  - pose proof (iter_pos_invariant shr_1
        (fun e x => located y e x /\ magnitude K e x)) as I.
    destruct (I ltac:(intros e0 x [A B]; split;
                       [now apply shr_1_located | apply shr_1_magnitude; [apply A | exact B] ])
                p e mrs (conj HL HM)) as [A B].
    repeat split; try apply A; try apply B.
  - repeat split; try apply HL; try apply HM; lia.
Qed.

(** ** Rounding to nearest

    [binary_round_aux] returns an end of the canonical cell around the exact
    value, the nearer one. *)

Lemma Zdigits2_le_bound n k : 0 <= k -> 0 <= n < 2 ^ k -> Zdigits2 n <= k.
Proof.
  intros Hk [Hn Hlt]. destruct (Z.eq_dec n 0) as [-> | Hnz]; [simpl; lia | ].
  pose proof (Zdigits2_bounds n ltac:(lia)) as [Hlo _].
  destruct (Z_le_gt_dec (Zdigits2 n) k) as [L | G]; [exact L | exfalso].
  assert (2 ^ k <= 2 ^ (Zdigits2 n - 1)) by (apply Z.pow_le_mono_r; lia). lia.
Qed.

Lemma Zdigits2_gt_bound n k : 0 <= k -> 2 ^ k <= n -> k < Zdigits2 n.
Proof.
  intros Hk Hle. assert (0 < n) by (pose proof (Z.pow_pos_nonneg 2 k); lia).
  pose proof (Zdigits2_bounds n ltac:(lia)) as [_ Hhi].
  destruct (Z_lt_le_dec k (Zdigits2 n)) as [L | G]; [exact L | exfalso].
  assert (2 ^ Zdigits2 n <= 2 ^ k) by (apply Z.pow_le_mono_r; lia). lia.
Qed.

Lemma Zdigits2_mono a b : 0 <= a <= b -> Zdigits2 a <= Zdigits2 b.
Proof.
  intros [Ha Hab]. destruct (Z.eq_dec a 0) as [-> | Hnz].
  - apply Zdigits2_nonneg.
  - pose proof (Zdigits2_bounds a ltac:(lia)) as [Hlo _].
    pose proof (Zdigits2_nonneg a).
    assert (0 < Zdigits2 a).
    { destruct a; simpl; lia. }
    pose proof (Zdigits2_gt_bound b (Zdigits2 a - 1) ltac:(lia) ltac:(lia)). lia.
Qed.

Lemma shr_m_of_loc q l : shr_m (shr_record_of_loc q l) = q.
Proof. destruct l as [ | [ | | ] ]; reflexivity. Qed.

Lemma located_bounds y g mrs :
  located y g mrs ->
  (F2Q (shr_m mrs) g <= y /\ y < F2Q (shr_m mrs + 1) g)%Q.
Proof.
  unfold located. intros [_ H]. rewrite F2Q_succ. pose proof (bpow_pos g).
  destruct (shr_r mrs), (shr_s mrs); lra.
Qed.

Lemma round_nearest_even_spec y g mrs :
  located y g mrs ->
  let q := shr_m mrs in
  let q2 := round_nearest_even q (loc_of_shr_record mrs) in
  (q2 = q /\ (2 * y <= 2 * F2Q q g + bpow g)%Q) \/
  (q2 = q + 1 /\ (2 * F2Q q g + bpow g <= 2 * y)%Q).
Proof.
  destruct mrs as [m r s]. unfold located. cbn [shr_m shr_r shr_s].
  intros [Hm H]. pose proof (bpow_pos g).
  destruct r, s; cbn [loc_of_shr_record round_nearest_even].
  - right. split; [reflexivity | lra].
  - destruct (Z.even m); [left | right]; split; try reflexivity; lra.
  - left. split; [reflexivity | lra].
  - left. split; [reflexivity | lra].
Qed.

Lemma binary_round_aux_spec y q e l :
  located y e (shr_record_of_loc q l) ->
  e <= fexp prec emax (Zdigits2 q + e) ->
  exists qg g m'' e'',
    0 <= qg /\ canonical qg g /\
    (F2Q qg g <= y /\ y < F2Q (qg + 1) g)%Q /\
    0 <= m'' /\ canonical m'' e'' /\
    ((F2Q m'' e'' == F2Q qg g /\ 2 * y <= 2 * F2Q qg g + bpow g)%Q \/
     (F2Q m'' e'' == F2Q (qg + 1) g /\ 2 * F2Q qg g + bpow g <= 2 * y)%Q) /\
    binary_round_aux prec emax false q e l = finish m'' e''.
Proof.
  intros HL Hpre. unfold binary_round_aux, shr_fexp.
  set (K := Zdigits2 q + e) in *.
  assert (HM : magnitude K e (shr_record_of_loc q l)).
  { unfold magnitude. rewrite shr_m_of_loc. split; intros; subst K; [lia | ].
    subst q. simpl. lia. }
  pose proof (shr_spec y K _ e (fexp prec emax K - e) HL HM) as Hs.
  destruct (shr (shr_record_of_loc q l) e (fexp prec emax K - e)) as [mrs' g].
  destruct Hs as (HL' & HM' & Hg).
  assert (Hg' : g = fexp prec emax K) by lia. clear Hg.
  set (qg := shr_m mrs') in *.
  assert (Hqg : 0 <= qg) by apply HL'.
  assert (Cqg : canonical qg g).
  { unfold canonical. destruct HM' as [Hp Hz]. fold qg in Hp, Hz.
    destruct (Z.eq_dec qg 0) as [E | NE].
    - specialize (Hz E). rewrite E. rewrite fexp_eq in *. simpl. lia.
    - rewrite (Hp ltac:(lia)). exact Hg'. }
  pose proof (located_bounds y g mrs' HL') as Hb. fold qg in Hb.
  pose proof (round_nearest_even_spec y g mrs' HL') as Hr. cbv zeta in Hr. fold qg in Hr.
  set (q2 := round_nearest_even qg (loc_of_shr_record mrs')) in *.
  assert (Hq2 : qg <= q2 <= qg + 1) by (destruct Hr as [[-> _] | [-> _]]; lia).
  pose proof (canonical_lt_2p53 qg g Hqg Cqg) as Bqg.
  pose proof (canonical_emin qg g Cqg) as Eg.
  pose proof (Zdigits2_mono qg q2 ltac:(lia)) as Dmono.
  assert (Cg : g = Z.max (Zdigits2 qg + g - 53) (-1074)) by (rewrite <- fexp_eq; exact Cqg).
  destruct (Z_le_gt_dec (fexp prec emax (Zdigits2 q2 + g)) g) as [Hn2 | Hn2].
  - (* no renormalisation *)
    exists qg, g, q2, g.
    assert (Hshr : shr (shr_record_of_loc q2 loc_Exact) g
                     (fexp prec emax (Zdigits2 q2 + g) - g)
                   = (shr_record_of_loc q2 loc_Exact, g)).
    { unfold shr. destruct (fexp prec emax (Zdigits2 q2 + g) - g) eqn:E; try reflexivity. lia. }
    rewrite Hshr. cbn [shr_record_of_loc shr_m].
    repeat split; try tauto; try lia.
    + unfold canonical. rewrite fexp_eq in *. lia.
    + destruct Hr as [[-> ?] | [-> ?]]; [left | right]; split; auto; reflexivity.
  - (* the mantissa reached 2^53 *)
    rewrite fexp_eq in Hn2.
    assert (Hd : 53 < Zdigits2 q2) by lia.
    assert (Hq2v : q2 = 2 ^ 53).
    { destruct (Z_lt_le_dec q2 (2 ^ 53)) as [L | G]; [ | lia].
      pose proof (Zdigits2_le_bound q2 53 ltac:(lia) ltac:(lia)). lia. }
    assert (Hqgv : qg + 1 = 2 ^ 53) by lia.
    exists qg, g, (2 ^ 52), (g + 1).
    rewrite Hq2v. change (Zdigits2 (2 ^ 53)) with 54.
    rewrite fexp_eq. replace (Z.max (54 + g - 53) (-1074) - g) with 1 by lia.
    cbn [shr shr_record_of_loc iter_pos shr_1 shr_m Z.pow Z.pow_pos Pos.iter Z.mul Pos.mul orb].
    repeat split; try tauto; try lia.
    + unfold canonical. rewrite fexp_eq.
      change (Zdigits2 4503599627370496) with 53. lia.
    + right. rewrite Hqgv. split.
      * rewrite <- F2Q_even. reflexivity.
      * destruct Hr as [[E ?] | [E ?]]; [lia | assumption].
Qed.

(** ** Division

    [SFdiv_core_binary] computes enough quotient bits and the position of the
    exact quotient among them. *)

Lemma new_location_spec (md r : Z) :
  0 < md -> 0 <= r < md ->
  match new_location md r with
  | loc_Exact => r = 0
  | loc_Inexact Lt => 0 < r /\ 2 * r < md
  | loc_Inexact Eq => 2 * r = md
  | loc_Inexact Gt => md < 2 * r
  end.
Proof.
  intros Hmd Hr. unfold new_location, new_location_even, new_location_odd.
  destruct (Z.even md) eqn:Ev.
  - destruct (Z.eqb_spec r 0) as [E | NE]; [exact E | ].
    destruct (Z.compare_spec (2 * r) md); lia.
  - destruct (Z.eqb_spec r 0) as [E | NE]; [exact E | ].
    assert (Hodd : Z.odd md = true) by (rewrite <- Z.negb_even, Ev; reflexivity).
    apply Z.odd_spec in Hodd. destruct Hodd as [k Hk].
    destruct (Z.compare_spec (2 * r + 1) md); lia.
Qed.

Lemma F2Q_pos n e : 0 < n -> (0 < F2Q n e)%Q.
Proof.
  intros H. unfold F2Q. pose proof (bpow_pos e).
  rewrite Zlt_Qlt in H. change (inject_Z 0) with 0%Q in H. nra.
Qed.

Lemma Qsign_cancel (a X : Q) :
  (0 < X)%Q ->
  ((a * X == 0 -> a == 0) /\ (0 < a * X -> 0 < a) /\ (a * X < 0 -> a < 0))%Q.
Proof.
  intros HX.
  assert (Hi : (0 < / X)%Q) by now apply Qinv_lt_0_compat.
  assert (Ha : (a == a * X * / X)%Q) by (field; lra).
  set (i := (/ X)%Q) in *. set (p := (a * X)%Q) in *.
  repeat split; intros H.
  - rewrite Ha, H. ring.
  - rewrite Ha. apply Qmult_lt_0_compat; assumption.
  - assert (0 < (- p) * i)%Q by (apply Qmult_lt_0_compat; lra). lra.
Qed.

Lemma div_core_spec (ma md : positive) (ea ed : Z) :
  let '(q, e', l) := SFdiv_core_binary prec emax (Zpos ma) ea (Zpos md) ed in
  located (F2Q (Zpos ma) ea / F2Q (Zpos md) ed) e' (shr_record_of_loc q l) /\
  e' <= fexp prec emax (Zdigits2 q + e').
Proof.
  unfold SFdiv_core_binary.
  set (d1 := Zdigits2 (Zpos ma)). set (d2 := Zdigits2 (Zpos md)).
  set (D := d1 + ea - (d2 + ed)).
  set (e' := Z.min (fexp prec emax D) (ea - ed)).
  set (s := ea - ed - e').
  assert (Hs : 0 <= s) by (subst s e'; lia).
  set (m' := match s with Zpos _ => Z.shiftl (Zpos ma) s | Z0 => Zpos ma | Zneg _ => 0 end).
  assert (Hm' : m' = Zpos ma * 2 ^ s).
  { subst m'. destruct s as [ | p | p] eqn:E; [simpl; lia | | lia].
    now rewrite Z.shiftl_mul_pow2. }
  clearbody m'.
  pose proof (Z_div_mod m' (Zpos md) eq_refl) as Hdiv.
  destruct (Z.div_eucl m' (Zpos md)) as [q r]. destruct Hdiv as [Hqr Hr].
  pose proof (Z.pow_pos_nonneg 2 s ltac:(lia) Hs) as Hpow.
  assert (Hq : 0 <= q) by nia.
  set (y := (F2Q (Zpos ma) ea / F2Q (Zpos md) ed)%Q).
  pose proof (bpow_pos e') as Pu. pose proof (bpow_pos ed) as Pd.
  assert (KE : ((y - F2Q q e') * inject_Z (Zpos md) == inject_Z r * bpow e')%Q).
  { assert (Hy : (y * F2Q (Zpos md) ed == F2Q (Zpos ma) ea)%Q).
    { subst y. rewrite Qmult_comm. apply Qmult_div_r.
      pose proof (F2Q_pos (Zpos md) ed eq_refl). lra. }
    assert (Ha : (F2Q (Zpos ma) ea == inject_Z m' * bpow e' * bpow ed)%Q).
    { unfold F2Q. replace ea with (s + (e' + ed)) by (subst s; lia).
      rewrite !bpow_add, (bpow_Z s Hs), Hm', inject_Z_mult. ring. }
    rewrite Ha in Hy. unfold F2Q in Hy.
    assert (Hy' : (y * inject_Z (Zpos md) * bpow ed == inject_Z m' * bpow e' * bpow ed)%Q)
      by (rewrite <- Hy; ring).
    apply Qmult_inj_r in Hy'; [ | lra].
    unfold F2Q. rewrite Hqr, inject_Z_plus, inject_Z_mult in Hy'.
    rewrite <- (Qplus_inj_r _ _ (inject_Z q * bpow e' * inject_Z (Zpos md))).
    ring_simplify. rewrite Hy'. ring. }
  split.
  - pose proof (new_location_spec (Zpos md) r eq_refl Hr) as Hloc.
    assert (Pm : (0 < inject_Z (Zpos md))%Q) by (rewrite <- (Zlt_Qlt 0); reflexivity).
    assert (Pr : (0 <= inject_Z r)%Q) by (rewrite <- (Zle_Qle 0); lia).
    set (w := (y - F2Q q e')%Q) in *.
    set (X := inject_Z (Zpos md)) in *. set (R := inject_Z r) in *.
    set (u := bpow e') in *.
    unfold located. rewrite shr_m_of_loc. split; [exact Hq | ].
    destruct (new_location (Zpos md) r) as [ | [ | | ] ]; cbn [shr_record_of_loc shr_r shr_s].
    + assert (HR : (R == 0)%Q) by (subst R; rewrite Hloc; reflexivity).
      assert (H0 : (w * X == 0)%Q) by (rewrite KE, HR; ring).
      apply (Qsign_cancel w X Pm) in H0. subst w u. lra.
    + assert (HR : (2 * R == X)%Q).
      { subst R X. rewrite <- Hloc, inject_Z_mult. reflexivity. }
      assert (H0 : ((2 * w - u) * X == 0)%Q).
      { setoid_replace ((2 * w - u) * X)%Q with (2 * (w * X) - u * X)%Q by ring.
        rewrite KE.
        assert ((2 * R - X) * u == 0)%Q by (rewrite HR; ring). lra. }
      apply (Qsign_cancel _ X Pm) in H0. subst w u. lra.
    + destruct Hloc as [Hl1 Hl2].
      assert (HR0 : (0 < R)%Q) by (subst R; rewrite <- (Zlt_Qlt 0); lia).
      assert (HR : (2 * R < X)%Q).
      { subst R X. change 2%Q with (inject_Z 2). rewrite <- inject_Z_mult, <- Zlt_Qlt. lia. }
      assert (H0 : (0 < w * X)%Q) by (rewrite KE; apply Qmult_lt_0_compat; assumption).
      apply (Qsign_cancel w X Pm) in H0.
      assert (H1 : ((2 * w - u) * X < 0)%Q).
      { setoid_replace ((2 * w - u) * X)%Q with (2 * (w * X) - u * X)%Q by ring.
        rewrite KE.
        assert (0 < (X - 2 * R) * u)%Q by (apply Qmult_lt_0_compat; lra). lra. }
      apply (Qsign_cancel _ X Pm) in H1. subst w u. lra.
    + assert (HR : (X < 2 * R)%Q).
      { subst R X. change 2%Q with (inject_Z 2). rewrite <- inject_Z_mult, <- Zlt_Qlt. lia. }
      assert (HR1 : (R < X)%Q) by (subst R X; rewrite <- Zlt_Qlt; lia).
      assert (H0 : (0 < (2 * w - u) * X)%Q).
      { setoid_replace ((2 * w - u) * X)%Q with (2 * (w * X) - u * X)%Q by ring.
        rewrite KE.
        assert (0 < (2 * R - X) * u)%Q by (apply Qmult_lt_0_compat; lra). lra. }
      apply (Qsign_cancel _ X Pm) in H0.
      assert (H1 : ((w - u) * X < 0)%Q).
      { setoid_replace ((w - u) * X)%Q with (w * X - u * X)%Q by ring.
        rewrite KE.
        assert (0 < (X - R) * u)%Q by (apply Qmult_lt_0_compat; lra). lra. }
      apply (Qsign_cancel _ X Pm) in H1. subst w u. lra.
  - destruct (Z_le_gt_dec 0 (D - 1 - e')) as [Hk | Hk].
    + set (k0 := D - 1 - e') in *.
      pose proof (Zdigits2_bounds (Zpos ma) eq_refl) as [A1 _]. fold d1 in A1.
      pose proof (Zdigits2_bounds (Zpos md) eq_refl) as [_ B2]. fold d2 in B2.
      assert (Hd1 : 0 < d1) by (subst d1; simpl; lia).
      assert (Hd2 : 0 < d2) by (subst d2; simpl; lia).
      assert (E1 : 2 ^ (d1 - 1) * 2 ^ s = 2 ^ k0 * 2 ^ d2).
      { rewrite <- !Z.pow_add_r by lia. f_equal. subst k0 D s. lia. }
      pose proof (Z.pow_pos_nonneg 2 k0 ltac:(lia) Hk) as Pk.
      assert (Hqk : 2 ^ k0 <= q) by nia.
      pose proof (Zdigits2_gt_bound q k0 Hk Hqk) as Hdq.
      assert (He' : e' <= Z.max (D - 53) (-1074)) by (subst e'; rewrite fexp_eq; lia).
      assert (Hk0 : k0 = D - 1 - e') by reflexivity.
      rewrite fexp_eq. lia.
    + assert (He' : e' <= Z.max (D - 53) (-1074)) by (subst e'; rewrite fexp_eq; lia).
      rewrite fexp_eq. lia.
Qed.

Lemma fdiv_finite_spec (ma md : positive) (ea ed : Z) :
  exists m e,
    rounds_to (F2Q (Zpos ma) ea / F2Q (Zpos md) ed) m e /\
    SFdiv prec emax (S754_finite false ma ea) (S754_finite false md ed) = finish m e.
Proof.
  cbn [SFdiv xorb].
  pose proof (div_core_spec ma md ea ed) as H.
  destruct (SFdiv_core_binary prec emax (Zpos ma) ea (Zpos md) ed) as [[q e'] l].
  destruct H as [HL Hpre].
  destruct (binary_round_aux_spec _ q e' l HL Hpre)
    as (qg & g & m & e & H1 & H2 & H3 & H4 & H5 & H6 & H7).
  exists m, e. split; [ | exact H7].
  exists qg, g. tauto.
Qed.

(** ** Rounded quotients are ordered as the exact ones *)

Lemma rounds_to_monotone y1 y2 m1 e1 m2 e2 :
  rounds_to y1 m1 e1 -> rounds_to y2 m2 e2 -> (y1 < y2)%Q ->
  (F2Q m1 e1 <= F2Q m2 e2)%Q.
Proof.
  intros (q1 & g1 & Hq1 & C1 & B1 & Hm1 & Cm1 & R1)
         (q2 & g2 & Hq2 & C2 & B2 & Hm2 & Cm2 & R2) Hy.
  pose proof (canonical_gap m2 e2 q1 g1 Hm2 Hq1 Cm2 C1) as G1.
  pose proof (canonical_gap m1 e1 q2 g2 Hm1 Hq2 Cm1 C2) as G2.
  pose proof (F2Q_succ q1 g1) as S1. pose proof (F2Q_succ q2 g2) as S2.
  pose proof (bpow_pos g1). pose proof (bpow_pos g2).
  destruct R1 as [[E1 L1] | [E1 L1]], R2 as [[E2 L2] | [E2 L2]],
    G1 as [G1 | G1], G2 as [G2 | G2]; lra.
Qed.

Lemma finish_leb m1 e1 m2 e2 :
  0 <= m1 -> 0 <= m2 -> canonical m1 e1 -> canonical m2 e2 ->
  (F2Q m1 e1 <= F2Q m2 e2)%Q ->
  SFleb (finish m1 e1) (finish m2 e2) = true.
Proof.
  intros H1 H2 C1 C2 Hv.
  destruct (Z.eq_dec m1 0) as [-> | N1].
  - unfold finish at 1. destruct m2 as [ | p2 | p2]; try lia; [reflexivity | ].
    unfold finish. destruct (e2 <=? emax - prec); reflexivity.
  - assert (P1 : 0 < m1) by lia.
    pose proof (F2Q_pos m1 e1 P1) as V1.
    assert (P2 : 0 < m2).
    { destruct (Z.eq_dec m2 0) as [-> | ]; [ | lia].
      pose proof (F2Q_0 e2). lra. }
    assert (He : e1 <= e2).
    { destruct (Z_le_gt_dec e1 e2) as [L | G]; [exact L | exfalso].
      pose proof (canonical_exp_lt m2 e2 m1 e1 H2 H1 C2 C1 ltac:(lia)). lra. }
    assert (Hm : e1 = e2 -> m1 <= m2).
    { intros ->. destruct (Z_le_gt_dec m1 m2) as [L | G]; [exact L | exfalso].
      pose proof (F2Q_lt_mantissa m2 m1 e2 ltac:(lia)). lra. }
    destruct m1 as [ | p1 | p1], m2 as [ | p2 | p2]; try lia.
    unfold finish.
    destruct (Z.leb_spec e1 (emax - prec)), (Z.leb_spec e2 (emax - prec));
      try reflexivity; try lia.
    unfold SFleb, SFcompare.
    destruct (Z.compare_spec e1 e2) as [E | L | G]; try reflexivity; try lia.
    specialize (Hm E).
    change (Pos.compare_cont Eq p1 p2) with (Pos.compare p1 p2).
    destruct (Pos.compare_spec p1 p2); try reflexivity. lia.
Qed.

Lemma valid_canonical (s : bool) (m : positive) (e : Z) :
  valid_binary prec emax (S754_finite s m e) = true -> canonical (Zpos m) e.
Proof.
  cbn [valid_binary]. unfold bounded, canonical_mantissa, canonical.
  intros H. apply andb_prop in H. destruct H as [H _].
  apply Z.eqb_eq in H. cbn [Zdigits2]. lia.
Qed.

Lemma leb_refl_finish m e : 0 <= m -> SFleb (finish m e) (finish m e) = true.
Proof.
  intros H. unfold finish. destruct m as [ | p | p]; try lia; [reflexivity | ].
  destruct (e <=? emax - prec); [ | reflexivity].
  unfold SFleb, SFcompare. rewrite Z.compare_refl.
  change (Pos.compare_cont Eq p p) with (Pos.compare p p).
  now rewrite Pos.compare_refl.
Qed.

Lemma fdiv_monotone_finite (m1 m2 md : positive) (e1 e2 ed : Z) :
  valid_binary prec emax (S754_finite false m1 e1) = true ->
  valid_binary prec emax (S754_finite false m2 e2) = true ->
  SFleb (S754_finite false m1 e1) (S754_finite false m2 e2) = true ->
  SFleb (SFdiv prec emax (S754_finite false m1 e1) (S754_finite false md ed))
        (SFdiv prec emax (S754_finite false m2 e2) (S754_finite false md ed)) = true.
Proof.
  intros V1 V2 Hle.
  apply valid_canonical in V1, V2.
  unfold SFleb, SFcompare in Hle.
  assert (Hcases : (e1 = e2 /\ m1 = m2) \/
                   (F2Q (Zpos m1) e1 < F2Q (Zpos m2) e2)%Q).
  { destruct (Z.compare_spec e1 e2) as [E | L | G]; try discriminate.
    - subst e2. change (Pos.compare_cont Eq m1 m2) with (Pos.compare m1 m2) in Hle.
      destruct (Pos.compare_spec m1 m2) as [E' | L' | G']; try discriminate.
      + left. auto.
      + right. apply F2Q_lt_mantissa. lia.
    - right. apply canonical_exp_lt; auto; lia. }
  clear Hle.
  destruct (fdiv_finite_spec m2 md e2 ed) as (r2 & g2 & R2 & E2).
  destruct Hcases as [[-> ->] | Hlt].
  - rewrite E2. destruct R2 as (? & ? & ? & ? & ? & ? & ? & ?).
    now apply leb_refl_finish.
  - destruct (fdiv_finite_spec m1 md e1 ed) as (r1 & g1 & R1 & E1).
    rewrite E1, E2.
    pose proof (rounds_to_monotone _ _ _ _ _ _ R1 R2) as Hmono.
    destruct R1 as (? & ? & ? & ? & ? & ? & ? & ?).
    destruct R2 as (? & ? & ? & ? & ? & ? & ? & ?).
    apply finish_leb; auto. apply Hmono.
    pose proof (F2Q_pos (Zpos md) ed eq_refl) as Pd.
    unfold Qdiv. apply Qmult_lt_compat_r; [ | exact Hlt].
    now apply Qinv_lt_0_compat.
Qed.

(** ** The order of floats *)

Lemma ltb_leb_trans (c x y : float) :
  ltb c x = true -> leb x y = true -> ltb c y = true.
Proof.
  unfold ltb, leb, SFltb, SFleb.
  destruct c as [sc | sc | | sc mc ec], x as [sx | sx | | sx mx ex],
    y as [sy | sy | | sy my ey];
    try destruct sc; try destruct sx; try destruct sy;
    cbn [SFcompare]; try discriminate; try reflexivity;
    change (Pos.compare_cont Eq) with Pos.compare;
    repeat match goal with
           | |- context [Z.compare ?a ?b] => destruct (Z.compare_spec a b)
           | |- context [Pos.compare ?a ?b] => destruct (Pos.compare_spec a b)
           end;
    cbn [CompOpp]; try discriminate; try reflexivity; intros; exfalso; lia.
Qed.

Lemma nonneg_not_below_zero (c : float) (s : bool) :
  leb zero c = true -> ltb c (S754_zero s) = false.
Proof. destruct c as [sc | sc | | sc mc ec]; try destruct sc; try discriminate; reflexivity. Qed.

Lemma leb_finish_infinity (m e : Z) :
  0 <= m -> leb (finish m e) (S754_infinity false) = true.
Proof.
  intros H. unfold finish. destruct m as [ | p | p]; try lia; [reflexivity | ].
  destruct (e <=? emax - prec); reflexivity.
Qed.

(** ** Quotients grow with the numerator *)

Lemma ratio_gtb_monotone (a1 a2 d c : float) :
  valid a1 = true -> valid a2 = true ->
  leb zero a1 = true -> leb a1 a2 = true ->
  gtb d zero = true -> leb zero c = true ->
  gtb (fdiv a1 d) c = true -> gtb (fdiv a2 d) c = true.
Proof.
  intros V1 V2 H0 H12 Hd Hc. unfold gtb.
  destruct d as [sd | sd | | sd md ed]; try discriminate Hd;
    destruct sd; try discriminate Hd.
  - (* the denominator is infinite *)
    destruct a1 as [s1 | s1 | | s1 m1 e1]; cbn [fdiv SFdiv];
      try (rewrite (nonneg_not_below_zero c _ Hc); discriminate);
      destruct c as [sc | sc | | sc mc ec]; try destruct sc; discriminate.
  - destruct a1 as [s1 | s1 | | s1 m1 e1]; try discriminate H0.
    + cbn [fdiv SFdiv]. rewrite (nonneg_not_below_zero c _ Hc). discriminate.
    + destruct s1; try discriminate H0.
      destruct a2 as [s2 | s2 | | s2 m2 e2]; try discriminate H12.
      destruct s2; try discriminate H12. trivial.
    + destruct s1; try discriminate H0.
      destruct a2 as [s2 | s2 | | s2 m2 e2]; try discriminate H12;
        destruct s2; try discriminate H12; intros Hgt.
      * apply (ltb_leb_trans c _ _ Hgt).
        destruct (fdiv_finite_spec m1 md e1 ed) as (r & g & R & E).
        unfold fdiv. rewrite E. cbn [SFdiv xorb].
        destruct R as (? & ? & ? & ? & ? & ? & ? & ?).
        now apply leb_finish_infinity.
      * apply (ltb_leb_trans c _ _ Hgt).
        now apply fdiv_monotone_finite.
Qed.

Lemma amount_gtb_monotone (a1 a2 c : float) :
  leb a1 a2 = true -> gtb a1 c = true -> gtb a2 c = true.
Proof. intros H12 H. unfold gtb in *. exact (ltb_leb_trans c a1 a2 H H12). Qed.

(** ** Bands *)

Lemma band_monotone (lo hi x1 x2 : float) :
  (forall c, leb zero c = true -> gtb x1 c = true -> gtb x2 c = true) ->
  leb zero lo = true -> leb zero hi = true ->
  (band lo hi x1 <= band lo hi x2)%nat.
Proof.
  intros H Hlo Hhi. unfold band.
  destruct (gtb x1 hi) eqn:E1.
  - now rewrite (H hi Hhi E1).
  - destruct (gtb x1 lo) eqn:E2.
    + rewrite (H lo Hlo E2). destruct (gtb x2 hi); auto.
    + destruct (gtb x2 hi); [ | destruct (gtb x2 lo)]; auto.
Qed.

Lemma band_le_2 (lo hi x : float) : (band lo hi x <= 2)%nat.
Proof. unfold band. destruct (gtb x hi); [ | destruct (gtb x lo)]; auto. Qed.

Lemma final_score_banded (cs : CustomerStatistics) (amount : float) :
  final_score cs amount =
    banded_score (transaction_count cs <? 1) (transaction_count cs >? 10)
      (band f3_0 f5_0 (avg_ratio cs amount))
      (band f1_0 f1_5 (max_ratio cs amount))
      (band f1000 f5000 amount).
Proof.
  unfold final_score, capped_score, loyalty_discount, raw_score, amount_risk,
    max_ratio_risk, avg_ratio_risk, new_customer_risk, banded_score, band.
  destruct (transaction_count cs <? 1), (transaction_count cs >? 10),
    (gtb (avg_ratio cs amount) f5_0), (gtb (avg_ratio cs amount) f3_0),
    (gtb (max_ratio cs amount) f1_5), (gtb (max_ratio cs amount) f1_0),
    (gtb amount f5000), (gtb amount f1000); reflexivity.
Qed.

Ltac band_cases b :=
  destruct b as [ | [ | [ | b] ] ]; try lia.

Lemma banded_score_monotone (is_new is_loyal : bool) (b1 b2 b3 b1' b2' b3' : nat) :
  (b1 <= b1' <= 2)%nat -> (b2 <= b2' <= 2)%nat -> (b3 <= b3' <= 2)%nat ->
  leb (banded_score is_new is_loyal b1 b2 b3)
      (banded_score is_new is_loyal b1' b2' b3') = true.
Proof.
  intros H1 H2 H3.
  band_cases b1; band_cases b1'; band_cases b2; band_cases b2';
    band_cases b3; band_cases b3';
    destruct is_new, is_loyal; vm_compute; reflexivity.
Qed.

(** ** The model on the scenarios of the design document *)

Example literal_0_1 : f0_1 = S754_finite false 7205759403792794 (-56).
Proof. reflexivity. Qed.

Example literal_0_2 : f0_2 = S754_finite false 7205759403792794 (-55).
Proof. reflexivity. Qed.

Example literal_0_3 : f0_3 = S754_finite false 5404319552844595 (-54).
Proof. reflexivity. Qed.

Example literal_0_4 : f0_4 = S754_finite false 7205759403792794 (-54).
Proof. reflexivity. Qed.

Example literal_0_5 : f0_5 = S754_finite false 4503599627370496 (-53).
Proof. reflexivity. Qed.

Example literal_0_8 : f0_8 = S754_finite false 7205759403792794 (-53).
Proof. reflexivity. Qed.

Example literal_1_5 : f1_5 = S754_finite false 6755399441055744 (-52).
Proof. reflexivity. Qed.

Example literal_0_56 : decimal 56 100 = S754_finite false 5044031582654956 (-53).
Proof. reflexivity. Qed.

Example format_tie_to_even : format_1f (decimal 125 100) = "1.2"%string.
Proof. reflexivity. Qed.

Example format_above_tie : format_1f (decimal 135 100) = "1.4"%string.
Proof. reflexivity. Qed.

Example scenario_A :
  score zero_record (of_Z 1500) f0_5 =
    OK {| predicted_fraud := true;
          fraud_score := decimal 6 10;
          threshold := f0_5;
          customer_stats := zero_record;
          fraud_indicators := ["High amount for a new customer"%string];
          amount_to_avg_ratio := None;
          amount_to_max_ratio := None |}.
Proof. reflexivity. Qed.

Example scenario_B_indicators :
  option_map fraud_indicators
    (match score scenario_B (of_Z 600) f0_5 with OK r => Some r | Raise _ => None end) =
  Some ["Amount is 6.0x higher than customer's average"%string;
        "Amount is 3.0x higher than customer's maximum"%string].
Proof. reflexivity. Qed.

Example scenario_C :
  score scenario_C_stats (of_Z 300) f0_5 =
    OK {| predicted_fraud := false;
          fraud_score := zero;
          threshold := f0_5;
          customer_stats := scenario_C_stats;
          fraud_indicators := [];
          amount_to_avg_ratio := Some (decimal 6 10);
          amount_to_max_ratio := Some (decimal 3 10) |}.
Proof. reflexivity. Qed.

Example scenario_D :
  analyze_transaction 42 (of_Z 1500)
    {| md_threshold := None; customer_stats_overall := Some (Frame []) |} =
  score zero_record (of_Z 1500) f0_5.
Proof. reflexivity. Qed.

(** * The claims *)

(** C1, as stated, fails: for Scenario B (count 20, average 100, maximum
    200, amount 600, threshold 0.5) the scorer does not return a fraud score
    equal to the float 0.56 together with the two ratios 6.0 and 3.0 and a
    positive decision. *)
Lemma scenario_B_score_is_not_0_56 :
  ~ (exists r : RiskAssessment,
        score scenario_B (of_Z 600) f0_5 = OK r /\
        amount_to_avg_ratio r = Some (of_Z 6) /\
        amount_to_max_ratio r = Some (of_Z 3) /\
        fraud_score r = decimal 56 100 /\
        predicted_fraud r = true).
Proof.
  intros [r (Hr & _ & _ & Hs & _)].
  rewrite score_OK in Hr. injection Hr as <-.
  vm_compute in Hs. discriminate Hs.
Qed.

(** C1, amended: for Scenario B the scorer returns the ratios 6.0 and 3.0;
    the raw score 0.0 + 0.3 + 0.4 is the float 0.7 and the cap leaves it
    unchanged; the returned fraud score is the binary64 product 0.7 * 0.8,
    which is 5044031582654955 * 2^-53 (printed 0.5599999999999999), the
    float just below 0.56; and the decision is fraud. *)
Theorem scenario_B_assessment :
  exists r : RiskAssessment,
    score scenario_B (of_Z 600) f0_5 = OK r /\
    amount_to_avg_ratio r = Some (of_Z 6) /\
    amount_to_max_ratio r = Some (of_Z 3) /\
    raw_score 20 (of_Z 6) (of_Z 3) (of_Z 600) = decimal 7 10 /\
    py_min (decimal 7 10) f1_0 = decimal 7 10 /\
    fraud_score r = mul (decimal 7 10) f0_8 /\
    fraud_score r = S754_finite false 5044031582654955 (-53) /\
    SFsucc prec emax (fraud_score r) = decimal 56 100 /\
    ltb (fraud_score r) (decimal 56 100) = true /\
    predicted_fraud r = true.
Proof.
  eexists. split; [apply score_OK | ].
  vm_compute. repeat split; reflexivity.
Qed.

(** C2: the loyalty multiplier 0.8 is applied exactly when
    [transaction_count > 10], to the score already capped at 1.0, and nothing
    is applied after it: the returned score is [0.8 * min(raw, 1.0)] for an
    established customer and [min(raw, 1.0)] otherwise, where [raw] is the
    sum of the four contributions. *)
Theorem loyalty_discount_after_cap (cs : CustomerStatistics) (amount thr : float) :
  exists r : RiskAssessment,
    score cs amount thr = OK r /\
    let raw := contributions_sum (transaction_count cs)
                 (avg_ratio cs amount) (max_ratio cs amount) amount in
    fraud_score r =
      if transaction_count cs >? 10 then mul f0_8 (py_min raw f1_0)
      else py_min raw f1_0.
Proof.
  eexists. split; [apply score_OK | ].
  simpl. unfold final_score, capped_score, loyalty_discount.
  rewrite raw_score_sum.
  destruct (transaction_count cs >? 10); [apply mul_comm | reflexivity].
Qed.

(** C3: the returned fraud score lies in the closed interval [0, 1], for every
    statistics record, amount and threshold. *)
Theorem fraud_score_in_unit_interval (cs : CustomerStatistics) (amount thr : float) :
  exists r : RiskAssessment,
    score cs amount thr = OK r /\
    leb zero (fraud_score r) = true /\
    leb (fraud_score r) f1_0 = true.
Proof.
  eexists. split; [apply score_OK | ].
  apply final_score_range.
Qed.

(** C4: for fixed statistics and threshold the fraud score does not decrease
    when the amount grows: for binary64 amounts [0 <= a1 <= a2] the score
    returned for [a1] is at most the score returned for [a2]. *)
Theorem fraud_score_monotone_in_amount
    (cs : CustomerStatistics) (thr a1 a2 : float)
    (Hv1 : valid a1 = true) (Hv2 : valid a2 = true)
    (Hnonneg : leb zero a1 = true) (Hle : leb a1 a2 = true) :
  exists r1 r2 : RiskAssessment,
    score cs a1 thr = OK r1 /\
    score cs a2 thr = OK r2 /\
    leb (fraud_score r1) (fraud_score r2) = true.
Proof.
  exists (assessment cs a1 thr), (assessment cs a2 thr).
  split; [apply score_OK | split; [apply score_OK | ] ].
  cbn [fraud_score assessment]. rewrite !final_score_banded.
  apply banded_score_monotone; (split; [ | apply band_le_2]).
  - apply band_monotone; try reflexivity. intros c Hc. unfold avg_ratio.
    destruct (gtb (avg_amount cs) zero) eqn:Hd; [ | trivial].
    now apply ratio_gtb_monotone.
  - apply band_monotone; try reflexivity. intros c Hc. unfold max_ratio.
    destruct (gtb (max_amount cs) zero) eqn:Hd; [ | trivial].
    now apply ratio_gtb_monotone.
  - apply band_monotone; try reflexivity. intros c _.
    now apply amount_gtb_monotone.
Qed.

Lemma fraud_score_monotone_in_amount_witness :
  exists r1 r2 : RiskAssessment,
    score scenario_B (of_Z 300) f0_5 = OK r1 /\
    score scenario_B (of_Z 600) f0_5 = OK r2 /\
    leb (fraud_score r1) (fraud_score r2) = true.
Proof.
  apply (fraud_score_monotone_in_amount scenario_B f0_5 (of_Z 300) (of_Z 600));
    reflexivity.
Defined.

(** C5: the decision is the strict comparison [fraud_score > threshold]; a
    score equal to the threshold is not fraud. *)
Theorem predicted_fraud_strict (cs : CustomerStatistics) (amount thr : float) :
  exists r : RiskAssessment,
    score cs amount thr = OK r /\
    predicted_fraud r = gtb (fraud_score r) thr /\
    (eqb (fraud_score r) thr = true -> predicted_fraud r = false) /\
    (fraud_score r = thr -> predicted_fraud r = false).
Proof.
  eexists. split; [apply score_OK | ]. simpl.
  split; [reflexivity | split].
  - apply eqb_not_gtb.
  - intros <-. unfold gtb, ltb, SFltb.
    pose proof (SFcompare_antisym (final_score cs amount) (final_score cs amount)) as H.
    destruct (SFcompare (final_score cs amount) (final_score cs amount))
      as [[ | | ] | ]; simpl in H; congruence.
Qed.

(** ** Lookup *)

Lemma row_stats_eta (s : CustomerStatistics) :
  {| transaction_count := transaction_count s;
     avg_amount := avg_amount s;
     max_amount := max_amount s;
     min_amount := min_amount s;
     total_amount := total_amount s |} = s.
Proof. now destruct s. Qed.

Lemma lookup_find (table : StatisticsTable) (id : Z) :
  lookup (Some (Frame table)) id =
    match find (fun row => customer_id row =? id) table with
    | Some row => row_stats row
    | None => zero_record
    end.
Proof.
  unfold lookup, customer_history, select_customer.
  induction table as [ | row table IH]; simpl; [reflexivity | ].
  destruct (customer_id row =? id); [apply row_stats_eta | exact IH].
Qed.

Lemma find_absent (table : StatisticsTable) (id : Z) :
  (forall row, In row table -> customer_id row <> id) ->
  find (fun row => customer_id row =? id) table = None.
Proof.
  induction table as [ | row table IH]; simpl; intros H; [reflexivity | ].
  destruct (Z.eqb_spec (customer_id row) id) as [E | _].
  - exfalso. apply (H row); auto.
  - apply IH. intros r Hr. apply H. now right.
Qed.

Lemma find_first (before after : StatisticsTable) (row : StatsRow) (id : Z) :
  (forall r, In r before -> customer_id r <> id) ->
  customer_id row = id ->
  find (fun r => customer_id r =? id) (before ++ row :: after) = Some row.
Proof.
  intros Hb Hrow.
  induction before as [ | r before IH]; simpl.
  - now rewrite Hrow, Z.eqb_refl.
  - destruct (Z.eqb_spec (customer_id r) id) as [E | _].
    + exfalso. apply (Hb r); simpl; auto.
    + apply IH. intros r' Hr'. apply Hb. now right.
Qed.

(** C6: the lookup never fails.  A table that is not loaded, a source whose
    selection raises, and a table with no row for the identifier all give the
    zero record; when several rows carry the identifier the first one in
    table order is used; and [analyze_transaction] returns an assessment,
    built on the statistics the lookup found, whatever the identifier. *)
Theorem lookup_never_fails (md : ModelData) (id : Z) (amount : float) :
  let stats := customer_stats_overall md in
  (stats = None -> lookup stats id = zero_record) /\
  (stats = Some NoKeyColumn -> lookup stats id = zero_record) /\
  (forall table,
      stats = Some (Frame table) ->
      (forall row, In row table -> customer_id row <> id) ->
      lookup stats id = zero_record) /\
  (forall before row after,
      stats = Some (Frame (before ++ row :: after)) ->
      (forall r, In r before -> customer_id r <> id) ->
      customer_id row = id ->
      lookup stats id = row_stats row) /\
  exists r : RiskAssessment,
    analyze_transaction id amount md = OK r /\
    customer_stats r = lookup stats id.
Proof.
  intros stats. repeat split.
  - intros ->. reflexivity.
  - intros ->. reflexivity.
  - intros table -> Habs. rewrite lookup_find. now rewrite find_absent.
  - intros before row after -> Hb Hrow. rewrite lookup_find.
    now rewrite (find_first before after row id Hb Hrow).
  - eexists. split; [apply score_OK | reflexivity].
Qed.

(** ** Ratios *)

Lemma fdiv_zero_positive (x d : float) :
  is_zero x = true -> gtb d zero = true -> is_zero (fdiv x d) = true.
Proof.
  destruct x as [sx | sx | | sx mx ex]; try discriminate.
  destruct d as [sd | sd | | sd md ed]; try discriminate; reflexivity.
Qed.

(** C7: each ratio is surfaced as the quotient [amount / denominator] exactly
    when its denominator is positive and as [None] otherwise, never as zero;
    with a positive denominator and a zero amount the surfaced value is the
    number zero. *)
Theorem ratios_defined_iff_denominator_positive
    (cs : CustomerStatistics) (amount thr : float) :
  exists r : RiskAssessment,
    score cs amount thr = OK r /\
    amount_to_avg_ratio r =
      (if gtb (avg_amount cs) zero then Some (fdiv amount (avg_amount cs)) else None) /\
    amount_to_max_ratio r =
      (if gtb (max_amount cs) zero then Some (fdiv amount (max_amount cs)) else None) /\
    (amount_to_avg_ratio r <> None <-> gtb (avg_amount cs) zero = true) /\
    (amount_to_max_ratio r <> None <-> gtb (max_amount cs) zero = true) /\
    (is_zero amount = true -> gtb (avg_amount cs) zero = true ->
     exists z, amount_to_avg_ratio r = Some z /\ is_zero z = true) /\
    (is_zero amount = true -> gtb (max_amount cs) zero = true ->
     exists z, amount_to_max_ratio r = Some z /\ is_zero z = true).
Proof.
  eexists. split; [apply score_OK | ]. simpl. unfold avg_ratio, max_ratio.
  repeat split.
  - now destruct (gtb (avg_amount cs) zero).
  - now destruct (gtb (max_amount cs) zero).
  - destruct (gtb (avg_amount cs) zero); congruence.
  - intros ->. discriminate.
  - destruct (gtb (max_amount cs) zero); congruence.
  - intros ->. discriminate.
  - intros Ha Hd. rewrite Hd. eexists. split; [reflexivity | ].
    now apply fdiv_zero_positive.
  - intros Ha Hd. rewrite Hd. eexists. split; [reflexivity | ].
    now apply fdiv_zero_positive.
Qed.

(** ** New customers *)

Lemma zero_not_positive (d : float) : is_zero d = true -> gtb d zero = false.
Proof. destruct d; try discriminate; reflexivity. Qed.

(** C8: for a customer with no recorded transaction, whose average is
    therefore zero, the score is accumulated from 0.0 + 0.5, no average-ratio
    rule adds to it, no loyalty discount is taken off it, so it is at least
    0.5; and no indicator of the form "Amount is ...x higher than customer's
    average" is emitted. *)
Theorem new_customer_term_and_no_avg_indicator
    (cs : CustomerStatistics) (amount thr : float)
    (Hcount : transaction_count cs = 0)
    (Havg : is_zero (avg_amount cs) = true) :
  exists r : RiskAssessment,
    score cs amount thr = OK r /\
    fraud_score r =
      py_min (amount_risk amount
                (max_ratio_risk (max_ratio cs amount) (add f0_0 f0_5))) f1_0 /\
    leb f0_5 (fraud_score r) = true /\
    amount_to_avg_ratio r = None /\
    forall s, In s (fraud_indicators r) -> ~ is_avg_ratio_indicator s.
Proof.
  eexists. split; [apply score_OK | ]. simpl.
  pose proof (zero_not_positive _ Havg) as Hg.
  unfold final_score, capped_score, loyalty_discount, raw_score, avg_ratio,
    avg_indicators, max_indicators.
  rewrite Hcount, Hg. change (0 >? 10) with false. cbv iota.
  change (new_customer_risk 0 f0_0) with (add f0_0 f0_5).
  change (avg_ratio_risk zero (add f0_0 f0_5)) with (add f0_0 f0_5).
  repeat split.
  - unfold amount_risk, max_ratio_risk. split_rules; vm_compute; reflexivity.
  - intros s Hs. apply in_app_or in Hs. destruct Hs as [Hs | Hs].
    + destruct (gtb amount f1000); simpl in Hs; [ | contradiction].
      destruct Hs as [<- | []]. apply new_customer_indicator_not_avg.
    + destruct (gtb (max_amount cs) zero); [ | contradiction].
      destruct (gtb (max_ratio cs amount) f1_5).
      * destruct Hs as [<- | []]. apply max_indicator_not_avg.
      * destruct (gtb (max_ratio cs amount) f1_0); [ | contradiction].
        destruct Hs as [<- | []]. apply exceeds_max_indicator_not_avg.
Qed.

Lemma new_customer_term_and_no_avg_indicator_witness :
  exists r : RiskAssessment,
    score new_customer_with_max (of_Z 1500) f0_5 = OK r /\
    fraud_score r =
      py_min (amount_risk (of_Z 1500)
                (max_ratio_risk (max_ratio new_customer_with_max (of_Z 1500))
                   (add f0_0 f0_5))) f1_0 /\
    leb f0_5 (fraud_score r) = true /\
    amount_to_avg_ratio r = None /\
    forall s, In s (fraud_indicators r) -> ~ is_avg_ratio_indicator s.
Proof.
  apply (new_customer_term_and_no_avg_indicator new_customer_with_max (of_Z 1500) f0_5);
    reflexivity.
Defined.

(** ** Unused fields *)

(** C9: the minimum and the total amount do not influence the assessment: two
    records that agree on count, average and maximum give the same fraud
    score, decision, indicators and ratios. *)
Theorem min_and_total_do_not_interfere
    (cs1 cs2 : CustomerStatistics) (amount thr : float)
    (Hcount : transaction_count cs1 = transaction_count cs2)
    (Havg : avg_amount cs1 = avg_amount cs2)
    (Hmax : max_amount cs1 = max_amount cs2) :
  exists r1 r2 : RiskAssessment,
    score cs1 amount thr = OK r1 /\
    score cs2 amount thr = OK r2 /\
    fraud_score r1 = fraud_score r2 /\
    predicted_fraud r1 = predicted_fraud r2 /\
    fraud_indicators r1 = fraud_indicators r2 /\
    amount_to_avg_ratio r1 = amount_to_avg_ratio r2 /\
    amount_to_max_ratio r1 = amount_to_max_ratio r2.
Proof.
  exists (assessment cs1 amount thr), (assessment cs2 amount thr).
  split; [apply score_OK | split; [apply score_OK | ] ].
  simpl. unfold final_score, capped_score, avg_indicators, max_indicators,
    avg_ratio, max_ratio.
  rewrite Hcount, Havg, Hmax. repeat split; reflexivity.
Qed.

Lemma min_and_total_do_not_interfere_witness :
  min_amount scenario_B <> min_amount scenario_B_other /\
  total_amount scenario_B <> total_amount scenario_B_other /\
  exists r1 r2 : RiskAssessment,
    score scenario_B (of_Z 600) f0_5 = OK r1 /\
    score scenario_B_other (of_Z 600) f0_5 = OK r2 /\
    fraud_score r1 = fraud_score r2 /\
    predicted_fraud r1 = predicted_fraud r2 /\
    fraud_indicators r1 = fraud_indicators r2 /\
    amount_to_avg_ratio r1 = amount_to_avg_ratio r2 /\
    amount_to_max_ratio r1 = amount_to_max_ratio r2.
Proof.
  split; [vm_compute; discriminate | split; [vm_compute; discriminate | ] ].
  apply (min_and_total_do_not_interfere scenario_B scenario_B_other (of_Z 600) f0_5);
    reflexivity.
Defined.

(** ** Totality *)

(** C10: the scorer is total.  For every statistics record and every float
    amount (negative, infinite or NaN included) each division is reached only
    with a denominator that passed the test [> 0], so it does not raise, and
    an assessment is returned. *)
Theorem score_total (cs : CustomerStatistics) (amount thr : float) :
  (forall x d : float, gtb d zero = true -> truediv x d = OK (fdiv x d)) /\
  (forall l, exists p, avg_ratio_step cs amount l = OK p) /\
  (forall l, exists p, max_ratio_step cs amount l = OK p) /\
  exists r : RiskAssessment, score cs amount thr = OK r.
Proof.
  split; [exact truediv_guarded | ].
  split; [intros l; eexists; apply avg_ratio_step_OK | ].
  split; [intros l; eexists; apply max_ratio_step_OK | ].
  eexists. apply score_OK.
Qed.

(** * Further properties of the scorer *)

(** ** More on the order of floats *)

Lemma leb_ltb_trans (c d x : float) :
  leb c d = true -> ltb d x = true -> ltb c x = true.
Proof.
  unfold ltb, leb, SFltb, SFleb.
  destruct c as [sc | sc | | sc mc ec], d as [sd | sd | | sd md ed],
    x as [sx | sx | | sx mx ex];
    try destruct sc; try destruct sd; try destruct sx;
    cbn [SFcompare]; try discriminate; try reflexivity;
    change (Pos.compare_cont Eq) with Pos.compare;
    repeat match goal with
           | |- context [Z.compare ?a ?b] => destruct (Z.compare_spec a b)
           | |- context [Pos.compare ?a ?b] => destruct (Pos.compare_spec a b)
           end;
    cbn [CompOpp]; try discriminate; try reflexivity; intros; exfalso; lia.
Qed.

Lemma ltb_not_leb (x y : float) : ltb x y = true -> leb y x = false.
Proof.
  unfold ltb, leb, SFltb, SFleb. rewrite (SFcompare_antisym x y).
  destruct (SFcompare x y) as [[ | | ] | ]; simpl; congruence.
Qed.

Lemma gtb_hi_gtb_lo (lo hi x : float) :
  leb lo hi = true -> gtb x hi = true -> gtb x lo = true.
Proof. unfold gtb. apply leb_ltb_trans. Qed.

(** ** The sign of a quotient *)

Lemma binary_round_aux_sign (sx : bool) (mx ex : Z) (lx : location) :
  match binary_round_aux prec emax sx mx ex lx with
  | S754_zero s | S754_infinity s | S754_finite s _ _ => s = sx
  | S754_nan => True
  end.
Proof.
  unfold binary_round_aux.
  destruct (shr_fexp prec emax mx ex lx) as [mrs' e'].
  destruct (shr_fexp prec emax _ e' loc_Exact) as [mrs'' e''].
  destruct (shr_m mrs''); [reflexivity | | exact I].
  destruct (e'' <=? emax - prec); reflexivity.
Qed.

Lemma fdiv_not_positive (a d : float) :
  gtb a zero = false -> gtb d zero = true -> gtb (fdiv a d) zero = false.
Proof.
  intros Ha Hd.
  destruct d as [sd | sd | | sd md ed]; try discriminate Hd;
    destruct sd; try discriminate Hd;
    destruct a as [sa | sa | | sa ma ea]; try destruct sa; try discriminate Ha;
    try reflexivity.
  unfold fdiv. cbn [SFdiv xorb].
  destruct (SFdiv_core_binary prec emax (Zpos ma) ea (Zpos md) ed) as [[q e'] l].
  pose proof (binary_round_aux_sign true q e' l) as Hs.
  destruct (binary_round_aux prec emax true q e' l) as [s | s | | s m e];
    try subst s; reflexivity.
Qed.

Lemma not_gtb_lo_not_gtb_hi (lo hi x : float) :
  leb lo hi = true -> gtb x lo = false -> gtb x hi = false.
Proof.
  intros Hle Hlo. destruct (gtb x hi) eqn:E; [ | reflexivity].
  rewrite (gtb_hi_gtb_lo lo hi x Hle E) in Hlo. discriminate Hlo.
Qed.

Lemma not_gtb_zero_not_gtb (x c : float) :
  leb zero c = true -> gtb x zero = false -> gtb x c = false.
Proof.
  intros Hc Hx. destruct (gtb x c) eqn:E; [ | reflexivity].
  rewrite (gtb_hi_gtb_lo zero c x Hc E) in Hx. discriminate Hx.
Qed.

(** ** Bands and rules *)

Lemma band_zero (lo hi x : float) :
  leb lo hi = true -> (band lo hi x = 0%nat <-> gtb x lo = false).
Proof.
  intros Hle. unfold band. split.
  - destruct (gtb x hi); [discriminate | ]. destruct (gtb x lo); [discriminate | reflexivity].
  - intros Hlo. destruct (gtb x hi) eqn:Hhi.
    + rewrite (gtb_hi_gtb_lo lo hi x Hle Hhi) in Hlo. discriminate Hlo.
    + now rewrite Hlo.
Qed.

Lemma banded_score_zero (is_new is_loyal : bool) (b1 b2 b3 : nat) :
  (b1 <= 2)%nat -> (b2 <= 2)%nat -> (b3 <= 2)%nat ->
  (is_zero (banded_score is_new is_loyal b1 b2 b3) = true <->
   is_new = false /\ b1 = 0%nat /\ b2 = 0%nat /\ b3 = 0%nat).
Proof.
  intros H1 H2 H3.
  band_cases b1; band_cases b2; band_cases b3; destruct is_new, is_loyal;
    vm_compute; split; try discriminate; try tauto;
    intros (? & ? & ? & ?); discriminate.
Qed.

Lemma banded_score_loyal (is_new : bool) (b1 b2 b3 : nat) :
  (b1 <= 2)%nat -> (b2 <= 2)%nat -> (b3 <= 2)%nat ->
  leb (banded_score is_new true b1 b2 b3) f0_8 = true.
Proof.
  intros H1 H2 H3.
  band_cases b1; band_cases b2; band_cases b3; destruct is_new;
    vm_compute; reflexivity.
Qed.

Lemma final_score_monotone (cs : CustomerStatistics) (a1 a2 : float) :
  valid a1 = true -> valid a2 = true ->
  leb zero a1 = true -> leb a1 a2 = true ->
  leb (final_score cs a1) (final_score cs a2) = true.
Proof.
  intros Hv1 Hv2 Hnonneg Hle. rewrite !final_score_banded.
  apply banded_score_monotone; (split; [ | apply band_le_2]).
  - apply band_monotone; try reflexivity. intros c Hc. unfold avg_ratio.
    destruct (gtb (avg_amount cs) zero) eqn:Hd; [ | trivial].
    now apply ratio_gtb_monotone.
  - apply band_monotone; try reflexivity. intros c Hc. unfold max_ratio.
    destruct (gtb (max_amount cs) zero) eqn:Hd; [ | trivial].
    now apply ratio_gtb_monotone.
  - apply band_monotone; try reflexivity. intros c _.
    now apply amount_gtb_monotone.
Qed.

(** ** What the indicators say *)

(** X1: the indicator list has at most two entries, the one of the average
    rule first.  Both bands of the average rule print the same message, so an
    average indicator is emitted exactly when the average is positive and the
    ratio exceeds 3.0; without a positive average the only possible first
    entry is the new-customer message, emitted when the amount exceeds 1000. *)
Theorem indicators_closed_form (cs : CustomerStatistics) (amount thr : float) :
  exists r : RiskAssessment,
    score cs amount thr = OK r /\
    fraud_indicators r =
      (if gtb (avg_amount cs) zero then
         if gtb (fdiv amount (avg_amount cs)) f3_0
         then [avg_indicator (fdiv amount (avg_amount cs))] else []
       else if gtb amount f1000 then [new_customer_indicator] else [])
      ++
      (if gtb (max_amount cs) zero then
         if gtb (fdiv amount (max_amount cs)) f1_5
         then [max_indicator (fdiv amount (max_amount cs))]
         else if gtb (fdiv amount (max_amount cs)) f1_0
              then [exceeds_max_indicator] else []
       else []) /\
    (List.length (fraud_indicators r) <= 2)%nat.
Proof.
  eexists. split; [apply score_OK | ].
  cbn [fraud_indicators assessment].
  unfold avg_indicators, max_indicators, avg_ratio, max_ratio.
  destruct (gtb (avg_amount cs) zero), (gtb (max_amount cs) zero);
    try destruct (gtb (fdiv amount (avg_amount cs)) f5_0) eqn:H5;
    try rewrite (gtb_hi_gtb_lo f3_0 f5_0 _ eq_refl H5);
    try destruct (gtb (fdiv amount (avg_amount cs)) f3_0);
    try destruct (gtb amount f1000);
    try destruct (gtb (fdiv amount (max_amount cs)) f1_5);
    try destruct (gtb (fdiv amount (max_amount cs)) f1_0);
    split; simpl; try reflexivity; lia.
Qed.

(** X2: the score is zero exactly when the customer has at least one recorded
    transaction and no rule fires (average ratio at most 3.0, maximum ratio
    at most 1.0, amount at most 1000); and a zero score comes with an empty
    indicator list, so every emitted indicator is backed by a positive
    score. *)
Theorem zero_score_iff_no_rule_fires (cs : CustomerStatistics) (amount thr : float) :
  exists r : RiskAssessment,
    score cs amount thr = OK r /\
    (is_zero (fraud_score r) = true <->
       1 <= transaction_count cs /\
       gtb (avg_ratio cs amount) f3_0 = false /\
       gtb (max_ratio cs amount) f1_0 = false /\
       gtb amount f1000 = false) /\
    (is_zero (fraud_score r) = true -> fraud_indicators r = []).
Proof.
  eexists. split; [apply score_OK | ].
  cbn [fraud_score fraud_indicators assessment].
  rewrite final_score_banded.
  rewrite (banded_score_zero _ _ _ _ _ (band_le_2 _ _ _) (band_le_2 _ _ _) (band_le_2 _ _ _)).
  rewrite (band_zero f3_0 f5_0 _ eq_refl), (band_zero f1_0 f1_5 _ eq_refl),
    (band_zero f1000 f5000 _ eq_refl).
  rewrite Z.ltb_ge.
  split; [tauto | ].
  intros (_ & Ha & Hm & Hamt).
  unfold avg_indicators, max_indicators.
  rewrite Ha, Hm, Hamt.
  rewrite (not_gtb_lo_not_gtb_hi f3_0 f5_0 _ eq_refl Ha).
  rewrite (not_gtb_lo_not_gtb_hi f1_0 f1_5 _ eq_refl Hm).
  now destruct (gtb (avg_amount cs) zero), (gtb (max_amount cs) zero).
Qed.

(** ** Bounds that follow from the discount and the cap *)

(** X3: for an established customer (more than ten recorded transactions) the
    score never exceeds 0.8, whatever the amount. *)
Theorem loyal_customer_score_at_most_0_8
    (cs : CustomerStatistics) (amount thr : float)
    (Hloyal : 10 < transaction_count cs) :
  exists r : RiskAssessment,
    score cs amount thr = OK r /\ leb (fraud_score r) f0_8 = true.
Proof.
  eexists. split; [apply score_OK | ].
  cbn [fraud_score assessment]. rewrite final_score_banded.
  replace (transaction_count cs >? 10) with true by (symmetry; apply Z.gtb_lt; lia).
  apply banded_score_loyal; apply band_le_2.
Qed.

Lemma loyal_customer_score_at_most_0_8_witness :
  exists r : RiskAssessment,
    score scenario_B (of_Z 1000000) f0_5 = OK r /\ leb (fraud_score r) f0_8 = true.
Proof.
  apply (loyal_customer_score_at_most_0_8 scenario_B (of_Z 1000000) f0_5).
  reflexivity.
Defined.

(** X4: with a threshold of 1.0 or more no transaction is ever predicted as
    fraud. *)
Theorem threshold_at_least_one_never_flags
    (cs : CustomerStatistics) (amount thr : float)
    (Hthr : leb f1_0 thr = true) :
  exists r : RiskAssessment,
    score cs amount thr = OK r /\ predicted_fraud r = false.
Proof.
  eexists. split; [apply score_OK | ].
  cbn [predicted_fraud assessment]. unfold gtb.
  destruct (ltb thr (final_score cs amount)) eqn:E; [exfalso | reflexivity].
  destruct (final_score_range (transaction_count cs) (avg_ratio cs amount)
              (max_ratio cs amount) amount) as [_ Hle].
  pose proof (ltb_leb_trans thr _ _ E Hle) as Hlt.
  apply ltb_not_leb in Hlt. congruence.
Qed.

Lemma threshold_at_least_one_never_flags_witness :
  exists r : RiskAssessment,
    score zero_record (of_Z 1000000) f1_0 = OK r /\ predicted_fraud r = false.
Proof.
  apply (threshold_at_least_one_never_flags zero_record (of_Z 1000000) f1_0).
  reflexivity.
Defined.

(** X5: with a negative threshold every transaction is predicted as fraud. *)
Theorem negative_threshold_always_flags
    (cs : CustomerStatistics) (amount thr : float)
    (Hthr : ltb thr zero = true) :
  exists r : RiskAssessment,
    score cs amount thr = OK r /\ predicted_fraud r = true.
Proof.
  eexists. split; [apply score_OK | ].
  cbn [predicted_fraud assessment]. unfold gtb.
  destruct (final_score_range (transaction_count cs) (avg_ratio cs amount)
              (max_ratio cs amount) amount) as [Hge _].
  exact (ltb_leb_trans thr zero _ Hthr Hge).
Qed.

Lemma negative_threshold_always_flags_witness :
  exists r : RiskAssessment,
    score scenario_C_stats (of_Z 300) (decimal (-1) 10) = OK r /\
    predicted_fraud r = true.
Proof.
  apply (negative_threshold_always_flags scenario_C_stats (of_Z 300) (decimal (-1) 10)).
  reflexivity.
Defined.

(** ** Amounts that are not positive *)

(** X6: an amount that is not greater than zero (zero, negative or NaN) fires
    no rule: no indicator is emitted and the score is the new-customer term
    alone, 0.5 without recorded transactions and 0.0 otherwise. *)
Theorem non_positive_amount_fires_no_rule
    (cs : CustomerStatistics) (amount thr : float)
    (Hamount : gtb amount zero = false) :
  exists r : RiskAssessment,
    score cs amount thr = OK r /\
    fraud_indicators r = [] /\
    fraud_score r = if transaction_count cs <? 1 then f0_5 else zero.
Proof.
  eexists. split; [apply score_OK | ].
  cbn [fraud_indicators fraud_score assessment].
  assert (Ha : forall c, leb zero c = true -> gtb (avg_ratio cs amount) c = false).
  { intros c Hc. apply not_gtb_zero_not_gtb; [exact Hc | ]. unfold avg_ratio.
    destruct (gtb (avg_amount cs) zero) eqn:Hd; [ | reflexivity].
    now apply fdiv_not_positive. }
  assert (Hm : forall c, leb zero c = true -> gtb (max_ratio cs amount) c = false).
  { intros c Hc. apply not_gtb_zero_not_gtb; [exact Hc | ]. unfold max_ratio.
    destruct (gtb (max_amount cs) zero) eqn:Hd; [ | reflexivity].
    now apply fdiv_not_positive. }
  assert (Hamt : forall c, leb zero c = true -> gtb amount c = false).
  { intros c Hc. now apply not_gtb_zero_not_gtb. }
  split.
  - unfold avg_indicators, max_indicators.
    rewrite (Ha f5_0 eq_refl), (Ha f3_0 eq_refl), (Hm f1_5 eq_refl),
      (Hm f1_0 eq_refl), (Hamt f1000 eq_refl).
    now destruct (gtb (avg_amount cs) zero), (gtb (max_amount cs) zero).
  - unfold final_score, capped_score, loyalty_discount, raw_score, amount_risk,
      max_ratio_risk, avg_ratio_risk, new_customer_risk.
    rewrite (Ha f5_0 eq_refl), (Ha f3_0 eq_refl), (Hm f1_5 eq_refl),
      (Hm f1_0 eq_refl), (Hamt f5000 eq_refl), (Hamt f1000 eq_refl).
    destruct (Z.ltb_spec (transaction_count cs) 1) as [Hnew | Hold].
    + rewrite Z.gtb_ltb. replace (10 <? transaction_count cs) with false
        by (symmetry; apply Z.ltb_ge; lia).
      reflexivity.
    + destruct (transaction_count cs >? 10); reflexivity.
Qed.

Lemma non_positive_amount_fires_no_rule_witness :
  exists r : RiskAssessment,
    score scenario_B (of_Z (-600)) f0_5 = OK r /\
    fraud_indicators r = [] /\
    fraud_score r = if transaction_count scenario_B <? 1 then f0_5 else zero.
Proof.
  apply (non_positive_amount_fires_no_rule scenario_B (of_Z (-600)) f0_5).
  reflexivity.
Defined.

(** ** The decision as a function of amount and threshold *)

(** X7: once an amount is predicted as fraud, every larger amount is too (same
    statistics and threshold, binary64 amounts [0 <= a1 <= a2]). *)
Theorem decision_monotone_in_amount
    (cs : CustomerStatistics) (thr a1 a2 : float)
    (Hv1 : valid a1 = true) (Hv2 : valid a2 = true)
    (Hnonneg : leb zero a1 = true) (Hle : leb a1 a2 = true) :
  exists r1 r2 : RiskAssessment,
    score cs a1 thr = OK r1 /\
    score cs a2 thr = OK r2 /\
    (predicted_fraud r1 = true -> predicted_fraud r2 = true).
Proof.
  exists (assessment cs a1 thr), (assessment cs a2 thr).
  split; [apply score_OK | split; [apply score_OK | ] ].
  cbn [predicted_fraud assessment]. unfold gtb. intros H1.
  apply (ltb_leb_trans thr _ _ H1).
  now apply final_score_monotone.
Qed.

Lemma decision_monotone_in_amount_witness :
  exists r1 r2 : RiskAssessment,
    score scenario_B (of_Z 600) f0_5 = OK r1 /\
    score scenario_B (of_Z 6000) f0_5 = OK r2 /\
    (predicted_fraud r1 = true -> predicted_fraud r2 = true).
Proof.
  apply (decision_monotone_in_amount scenario_B f0_5 (of_Z 600) (of_Z 6000));
    reflexivity.
Defined.

(** X8: lowering the threshold never clears a transaction: what is predicted
    as fraud at a threshold is predicted as fraud at every smaller one, with
    the same score. *)
Theorem decision_antitone_in_threshold
    (cs : CustomerStatistics) (amount thr1 thr2 : float)
    (Hle : leb thr1 thr2 = true) :
  exists r1 r2 : RiskAssessment,
    score cs amount thr1 = OK r1 /\
    score cs amount thr2 = OK r2 /\
    fraud_score r1 = fraud_score r2 /\
    (predicted_fraud r2 = true -> predicted_fraud r1 = true).
Proof.
  exists (assessment cs amount thr1), (assessment cs amount thr2).
  split; [apply score_OK | split; [apply score_OK | ] ].
  split; [reflexivity | ].
  cbn [predicted_fraud assessment]. unfold gtb.
  exact (leb_ltb_trans thr1 thr2 _ Hle).
Qed.

Lemma decision_antitone_in_threshold_witness :
  exists r1 r2 : RiskAssessment,
    score scenario_B (of_Z 600) (decimal 3 10) = OK r1 /\
    score scenario_B (of_Z 600) f0_5 = OK r2 /\
    fraud_score r1 = fraud_score r2 /\
    (predicted_fraud r2 = true -> predicted_fraud r1 = true).
Proof.
  apply (decision_antitone_in_threshold scenario_B (of_Z 600) (decimal 3 10) f0_5).
  reflexivity.
Defined.

(** * Further properties of the lookup *)

(** X9: the lookup never hands out another customer's statistics: its result
    is the zero record or the statistics of a row of the table that carries
    the requested identifier. *)
Theorem lookup_returns_own_record (stats : option StatsSource) (id : Z) :
  lookup stats id = zero_record \/
  exists table row,
    stats = Some (Frame table) /\ In row table /\ customer_id row = id /\
    lookup stats id = row_stats row.
Proof.
  destruct stats as [[table | ] | ]; [ | left; reflexivity | left; reflexivity].
  rewrite lookup_find.
  destruct (find (fun row => customer_id row =? id) table) as [row | ] eqn:E;
    [right | left; reflexivity].
  apply find_some in E. destruct E as [Hin Hid].
  exists table, row. repeat split; auto. now apply Z.eqb_eq.
Qed.

(** X10: rows of other customers do not matter: a row with another identifier
    can be added to or removed from the table, at any position, without
    changing what the lookup returns. *)
Theorem lookup_ignores_other_customers
    (before after : StatisticsTable) (row : StatsRow) (id : Z)
    (Hother : customer_id row <> id) :
  lookup (Some (Frame (before ++ row :: after))) id =
  lookup (Some (Frame (before ++ after))) id.
Proof.
  rewrite !lookup_find.
  induction before as [ | r before IH]; simpl.
  - destruct (Z.eqb_spec (customer_id row) id); [contradiction | reflexivity].
  - destruct (customer_id r =? id); [reflexivity | exact IH].
Qed.

Lemma lookup_ignores_other_customers_witness :
  lookup (Some (Frame ([ {| customer_id := 7; row_stats := scenario_B |} ]
                         ++ {| customer_id := 9; row_stats := scenario_C_stats |}
                         :: [ {| customer_id := 7; row_stats := scenario_B_other |} ]))) 7 =
  lookup (Some (Frame ([ {| customer_id := 7; row_stats := scenario_B |} ]
                         ++ [ {| customer_id := 7; row_stats := scenario_B_other |} ]))) 7.
Proof.
  apply (lookup_ignores_other_customers
           [ {| customer_id := 7; row_stats := scenario_B |} ]
           [ {| customer_id := 7; row_stats := scenario_B_other |} ]
           {| customer_id := 9; row_stats := scenario_C_stats |} 7).
  simpl. lia.
Defined.

(** * Unknown customers and the fallback of [load_model] *)

Lemma zero_record_assessment (amount thr : float) :
  score zero_record amount thr =
    OK {| predicted_fraud :=
            gtb (if gtb amount f5000 then decimal 8 10
                 else if gtb amount f1000 then decimal 6 10 else f0_5) thr;
          fraud_score :=
            if gtb amount f5000 then decimal 8 10
            else if gtb amount f1000 then decimal 6 10 else f0_5;
          threshold := thr;
          customer_stats := zero_record;
          fraud_indicators :=
            if gtb amount f1000 then [new_customer_indicator] else [];
          amount_to_avg_ratio := None;
          amount_to_max_ratio := None |}.
Proof.
  rewrite score_OK. unfold assessment, final_score, capped_score, loyalty_discount,
    raw_score, amount_risk, avg_indicators, max_indicators.
  cbn [transaction_count avg_amount max_amount zero_record].
  change (gtb zero zero) with false. cbv iota.
  destruct (gtb amount f5000) eqn:H5.
  - rewrite (gtb_hi_gtb_lo f1000 f5000 amount eq_refl H5). reflexivity.
  - destruct (gtb amount f1000); reflexivity.
Qed.

(** X11: a customer the table does not know is scored from the amount alone:
    the score is 0.5, 0.6 above an amount of 1000 and 0.8 above 5000; the
    only possible indicator is the new-customer message, emitted above 1000;
    and no ratio is surfaced. *)
Theorem unknown_customer_assessment
    (model_data : ModelData) (id : Z) (amount : float)
    (Hunknown : lookup (customer_stats_overall model_data) id = zero_record) :
  exists r : RiskAssessment,
    analyze_transaction id amount model_data = OK r /\
    customer_stats r = zero_record /\
    fraud_score r =
      (if gtb amount f5000 then decimal 8 10
       else if gtb amount f1000 then decimal 6 10 else f0_5) /\
    fraud_indicators r = (if gtb amount f1000 then [new_customer_indicator] else []) /\
    amount_to_avg_ratio r = None /\
    amount_to_max_ratio r = None.
Proof.
  unfold analyze_transaction. rewrite Hunknown, zero_record_assessment.
  eexists. split; [reflexivity | ]. repeat split.
Qed.

Lemma unknown_customer_assessment_witness :
  exists r : RiskAssessment,
    analyze_transaction 8 (of_Z 1500) sample_model = OK r /\
    customer_stats r = zero_record /\
    fraud_score r =
      (if gtb (of_Z 1500) f5000 then decimal 8 10
       else if gtb (of_Z 1500) f1000 then decimal 6 10 else f0_5) /\
    fraud_indicators r =
      (if gtb (of_Z 1500) f1000 then [new_customer_indicator] else []) /\
    amount_to_avg_ratio r = None /\
    amount_to_max_ratio r = None.
Proof.
  apply (unknown_customer_assessment sample_model 8 (of_Z 1500)).
  reflexivity.
Defined.

(** X12: when the model file is missing or cannot be loaded, [load_model]
    reports it with one message that is not a success, and the analysis that
    follows treats every customer as new with the threshold 0.5: a
    transaction is predicted as fraud exactly when its amount exceeds 1000. *)
Theorem fallback_model_flags_above_1000
    (file : ModelFile) (id : Z) (amount : float)
    (Hfile : forall model_data, file <> FileLoads model_data) :
  (exists text, snd (load_model file) = [WarningBox text] \/
                snd (load_model file) = [ErrorBox text]) /\
  exists r : RiskAssessment,
    analyze_transaction id amount (fst (load_model file)) = OK r /\
    threshold r = f0_5 /\
    customer_stats r = zero_record /\
    predicted_fraud r = gtb amount f1000.
Proof.
  assert (Hm : fst (load_model file) = default_model_data).
  { destruct file as [ | md | msg]; try reflexivity. now destruct (Hfile md). }
  split.
  - destruct file as [ | md | msg]; [ | now destruct (Hfile md) | ];
      eexists; [left | right]; reflexivity.
  - rewrite Hm. unfold analyze_transaction.
    cbn [md_threshold customer_stats_overall default_model_data lookup customer_history].
    rewrite zero_record_assessment.
    eexists. split; [reflexivity | ]. cbn [threshold customer_stats predicted_fraud].
    repeat split.
    destruct (gtb amount f5000) eqn:H5.
    + rewrite (gtb_hi_gtb_lo f1000 f5000 amount eq_refl H5). reflexivity.
    + destruct (gtb amount f1000); reflexivity.
Qed.

Lemma fallback_model_flags_above_1000_witness :
  (exists text, snd (load_model FileMissing) = [WarningBox text] \/
                snd (load_model FileMissing) = [ErrorBox text]) /\
  exists r : RiskAssessment,
    analyze_transaction 3 (of_Z 1500) (fst (load_model FileMissing)) = OK r /\
    threshold r = f0_5 /\
    customer_stats r = zero_record /\
    predicted_fraud r = gtb (of_Z 1500) f1000.
Proof.
  apply (fallback_model_flags_above_1000 FileMissing 3 (of_Z 1500)).
  intros model_data. discriminate.
Defined.

(** * The page *)

(** ** What each part of the page is made of *)

Lemma progress_loop_elements (n i : Z) (l : list string) (e : element) :
  In e (progress_loop n i l) -> is_processing_element e = true.
Proof.
  revert i. induction l as [ | stage rest IH]; intros i; cbn [progress_loop In].
  - contradiction.
  - intros [<- | [<- | [<- | H] ] ]; try reflexivity. exact (IH _ H).
Qed.

Lemma simulate_processing_of_elements (l : list string) (e : element) :
  In e (simulate_processing_of l) -> is_processing_element e = true.
Proof.
  unfold simulate_processing_of. rewrite !in_app_iff. cbn [In].
  intros [[<- | [<- | [] ] ] | [H | [<- | [<- | [] ] ] ] ]; try reflexivity.
  exact (progress_loop_elements _ _ _ _ H).
Qed.

Lemma load_model_elements (file : ModelFile) (e : element) :
  In e (snd (load_model file)) ->
  e = SuccessBox "Model loaded successfully!" \/
  e = WarningBox "Model file not found. Using default values for demonstration." \/
  exists message, e = ErrorBox ("Error loading model: " ++ message)%string.
Proof.
  destruct file as [ | md | msg]; cbn [load_model snd In]; intros [<- | []]; eauto.
Qed.

Lemma history_error_elements (stats : option StatsSource) (id : Z) (e : element) :
  In e (history_error stats id) ->
  exists message, e = ErrorBox ("Error getting customer history: " ++ message)%string.
Proof.
  unfold history_error. destruct stats as [[table | ] | ]; cbn [select_customer In];
    try contradiction.
  intros [<- | []]. eauto.
Qed.

Lemma indicator_section_elements (r : RiskAssessment) (e : element) :
  In e (indicator_section r) ->
  (e = SuccessBox "No risk indicators detected." /\ fraud_indicators r = []) \/
  (e = Write "**Risk Indicators:**" /\ fraud_indicators r <> []) \/
  (exists i, e = WarningBox (bullet i) /\ In i (fraud_indicators r)).
Proof.
  unfold indicator_section. destruct (fraud_indicators r) as [ | i l] eqn:E.
  - intros [<- | []]. left. auto.
  - intros [<- | H].
    + right. left. split; [reflexivity | discriminate].
    + right. right. apply in_map_iff in H. destruct H as (j & <- & Hj). eauto.
Qed.

Lemma ratio_metric_elements (column : nat) (label : string) (ratio : option float)
    (e : element) :
  In e (ratio_metric column label ratio) <->
  exists x, ratio = Some x /\ is_zero x = false /\
            e = Metric column label (MText (format_2f x ++ "x")%string).
Proof.
  unfold ratio_metric, truthy. destruct ratio as [x | ].
  - destruct (is_zero x) eqn:Hz; cbn [negb In]; split.
    + contradiction.
    + intros (y & Hy & Hnz & _). injection Hy as <-. congruence.
    + intros [<- | []]. eauto.
    + intros (y & Hy & _ & ->). injection Hy as <-. now left.
  - cbn [In]. split; [contradiction | ]. intros (y & Hy & _). discriminate Hy.
Qed.

Lemma page_exists (file : ModelFile) (id : Z) (amount : float) :
  exists page r,
    page_from file id amount page r /\
    r = assessment (lookup (customer_stats_overall (fst (load_model file))) id) amount
          (match md_threshold (fst (load_model file)) with
           | Some t => t
           | None => default_threshold
           end) /\
    page =
      ([Spinner "Analyzing transaction..."]
       ++ snd (load_model file)
       ++ simulate_processing
       ++ history_error (customer_stats_overall (fst (load_model file))) id
       ++ [Markdown ("<h2 class=" ++ dquote ++ "sub-header" ++ dquote
                       ++ ">Analysis Result</h2>") true;
           Write "**Transaction Summary:**";
           Write ("* Customer ID: " ++ str_int id);
           Write ("* Amount: $" ++ format_2f amount)]%string
       ++ display_result r
       ++ [Markdown "### Detailed Analysis" false]
       ++ history_section r
       ++ indicator_section r
       ++ actions_section r) /\
    forall e,
      In e page <->
      In e [Spinner "Analyzing transaction..."] \/
      In e (snd (load_model file)) \/
      In e simulate_processing \/
      In e (history_error (customer_stats_overall (fst (load_model file))) id) \/
      In e [Markdown ("<h2 class=" ++ dquote ++ "sub-header" ++ dquote
                        ++ ">Analysis Result</h2>") true;
            Write "**Transaction Summary:**";
            Write ("* Customer ID: " ++ str_int id);
            Write ("* Amount: $" ++ format_2f amount)]%string \/
      In e (display_result r) \/
      In e [Markdown "### Detailed Analysis" false] \/
      In e (history_section r) \/
      In e (indicator_section r) \/
      In e (actions_section r).
Proof.
  unfold page_from, check_transaction.
  destruct (load_model file) as [md msgs]. cbn [fst snd].
  unfold analyze_transaction. rewrite score_OK. cbn [bind].
  eexists. eexists. split; [split; reflexivity | ].
  split; [reflexivity | ]. split; [reflexivity | ].
  intros e. rewrite !in_app_iff. cbn [In]. tauto.
Qed.

(** ** The decision on the page *)

Ltac part_cases H :=
  first
    [ apply simulate_processing_of_elements in H; discriminate H
    | apply load_model_elements in H;
      destruct H as [H | [H | [? H] ] ]; discriminate H
    | apply history_error_elements in H; destruct H as [? H]; discriminate H
    | apply indicator_section_elements in H;
      destruct H as [ [H _] | [ [H _] | (? & H & _) ] ]; discriminate H
    | cbn [In] in H; repeat (destruct H as [H | H]; try discriminate H); contradiction ].

Ltac history_cases H :=
  unfold history_section in H;
  match type of H with
  | In _ (if ?c then _ else _) =>
      destruct c;
      [ rewrite !in_app_iff in H;
        destruct H as [H | [H | [H | H] ] ];
        first [ part_cases H
              | apply ratio_metric_elements in H;
                destruct H as (? & _ & _ & H); discriminate H ]
      | part_cases H ]
  end.

Ltac page_cases H :=
  destruct H as [H | [H | [H | [H | [H | [H | [H | [H | [H | H] ] ] ] ] ] ] ] ];
  try (part_cases H); try (history_cases H).

(** X13: the banner and the advice agree with the decision: the fraud banner
    and the "Recommended Actions" heading are on the page exactly when the
    transaction is predicted as fraud, and the "legitimate" banner exactly
    when it is not. *)
Theorem page_banner_matches_decision (file : ModelFile) (id : Z) (amount : float) :
  exists page r,
    page_from file id amount page r /\
    (In (ErrorBox fraud_banner) page <-> predicted_fraud r = true) /\
    (In (SuccessBox legitimate_banner) page <-> predicted_fraud r = false) /\
    (In (Markdown "### Recommended Actions" false) page <-> predicted_fraud r = true).
Proof.
  destruct (page_exists file id amount) as (page & r & Hp & _ & _ & Hin).
  exists page, r. split; [exact Hp | ].
  rewrite !Hin. unfold simulate_processing, display_result, actions_section.
  repeat split.
  - intros H. page_cases H;
      (destruct (predicted_fraud r); [reflexivity | part_cases H]).
  - intros ->. do 5 right. left. cbn [In]. tauto.
  - intros H. page_cases H;
      (destruct (predicted_fraud r); [part_cases H | reflexivity]).
  - intros ->. do 5 right. left. cbn [In]. tauto.
  - intros H. page_cases H;
      (destruct (predicted_fraud r); [reflexivity | part_cases H]).
  - intros ->. do 9 right. cbn [In]. tauto.
Qed.

(** ** The customer history on the page *)

(** X14: the page says "No transaction history" exactly when the recorded
    count is below one, which is the test of the new-customer rule of the
    scorer, and shows the history block exactly when the count is positive. *)
Theorem page_history_matches_new_customer_rule
    (file : ModelFile) (id : Z) (amount : float) :
  exists page r,
    page_from file id amount page r /\
    (In (InfoBox "No transaction history for this customer.") page <->
       (transaction_count (customer_stats r) <? 1) = true) /\
    (In (Write "**Customer History:**") page <->
       0 < transaction_count (customer_stats r)).
Proof.
  destruct (page_exists file id amount) as (page & r & Hp & _ & _ & Hin).
  exists page, r. split; [exact Hp | ].
  rewrite !Hin. unfold simulate_processing.
  repeat split.
  - intros H. page_cases H;
      try (unfold display_result, actions_section in H;
           destruct (predicted_fraud r); part_cases H).
    unfold history_section in H.
    destruct (Z.gtb_spec (transaction_count (customer_stats r)) 0) as [Hc | Hc].
    + rewrite !in_app_iff in H. destruct H as [H | [H | [H | H] ] ];
        first [ part_cases H
              | apply ratio_metric_elements in H;
                destruct H as (? & _ & _ & H); discriminate H ].
    + apply Z.ltb_lt. lia.
  - intros Hc. apply Z.ltb_lt in Hc. do 7 right. left. unfold history_section.
    destruct (Z.gtb_spec (transaction_count (customer_stats r)) 0); [lia | ].
    cbn [In]. tauto.
  - intros H. page_cases H;
      try (unfold display_result, actions_section in H;
           destruct (predicted_fraud r); part_cases H).
    unfold history_section in H.
    destruct (Z.gtb_spec (transaction_count (customer_stats r)) 0) as [Hc | Hc].
    + lia.
    + part_cases H.
  - intros Hc. do 7 right. left. unfold history_section.
    destruct (Z.gtb_spec (transaction_count (customer_stats r)) 0); [ | lia].
    cbn [In app]. tauto.
Qed.

(** ** The ratios on the page *)

Lemma history_section_ratio_metric (r : RiskAssessment) (column : nat)
    (label : string) (v : metric_value) :
  label <> "Previous Transactions"%string -> label <> "Total Spent"%string ->
  label <> "Average Amount"%string -> label <> "Maximum Amount"%string ->
  In (Metric column label v) (history_section r) ->
  0 < transaction_count (customer_stats r) /\
  (In (Metric column label v)
      (ratio_metric 2 "Amount/Avg Ratio" (amount_to_avg_ratio r)) \/
   In (Metric column label v)
      (ratio_metric 3 "Amount/Max Ratio" (amount_to_max_ratio r))).
Proof.
  intros N1 N2 N3 N4. unfold history_section.
  destruct (Z.gtb_spec (transaction_count (customer_stats r)) 0) as [Hc | Hc].
  - rewrite !in_app_iff. cbn [In].
    intros [H | [H | [H | H] ] ]; [ | auto | | auto].
    + destruct H as [H | [H | [H | [H | [H | [] ] ] ] ] ]; try discriminate H;
        injection H as _ Hl _; congruence.
    + destruct H as [H | [] ]. injection H as _ Hl _. congruence.
  - intros [H | [] ]. discriminate H.
Qed.

(** X15: a ratio is displayed only when it is a number other than zero: the
    "Amount/Avg Ratio" metric is on the page exactly when the customer has a
    recorded transaction and the surfaced ratio is a non-zero value, and the
    same holds for "Amount/Max Ratio".  For a zero amount neither metric is
    displayed, although the assessment carries the ratio 0.0 when the
    denominator is positive. *)
Theorem ratio_metric_shown_iff_nonzero (file : ModelFile) (id : Z) (amount : float) :
  exists page r,
    page_from file id amount page r /\
    ((exists v, In (Metric 2 "Amount/Avg Ratio" v) page) <->
       0 < transaction_count (customer_stats r) /\
       exists x, amount_to_avg_ratio r = Some x /\ is_zero x = false) /\
    ((exists v, In (Metric 3 "Amount/Max Ratio" v) page) <->
       0 < transaction_count (customer_stats r) /\
       exists x, amount_to_max_ratio r = Some x /\ is_zero x = false) /\
    (is_zero amount = true ->
       (forall v, ~ In (Metric 2 "Amount/Avg Ratio" v) page) /\
       (forall v, ~ In (Metric 3 "Amount/Max Ratio" v) page)).
Proof.
  destruct (page_exists file id amount) as (page & r & Hp & Hr & _ & Hin).
  exists page, r. split; [exact Hp | ].
  assert (Havg : (exists v, In (Metric 2 "Amount/Avg Ratio" v) page) <->
                 0 < transaction_count (customer_stats r) /\
                 exists x, amount_to_avg_ratio r = Some x /\ is_zero x = false).
  { split.
    - intros [v H]. apply Hin in H. unfold simulate_processing in H.
      page_cases H;
        try (unfold display_result, actions_section in H;
             destruct (predicted_fraud r); part_cases H).
      apply history_section_ratio_metric in H; try discriminate.
      destruct H as [Hc [H | H] ]; apply ratio_metric_elements in H;
        destruct H as (x & Hx & Hz & E); [eauto | discriminate E].
    - intros (Hc & x & Hx & Hz).
      exists (MText (format_2f x ++ "x")%string). apply Hin. do 7 right. left.
      unfold history_section.
      destruct (Z.gtb_spec (transaction_count (customer_stats r)) 0); [ | lia].
      rewrite !in_app_iff. right. left.
      apply ratio_metric_elements. eauto. }
  assert (Hmax : (exists v, In (Metric 3 "Amount/Max Ratio" v) page) <->
                 0 < transaction_count (customer_stats r) /\
                 exists x, amount_to_max_ratio r = Some x /\ is_zero x = false).
  { split.
    - intros [v H]. apply Hin in H. unfold simulate_processing in H.
      page_cases H;
        try (unfold display_result, actions_section in H;
             destruct (predicted_fraud r); part_cases H).
      apply history_section_ratio_metric in H; try discriminate.
      destruct H as [Hc [H | H] ]; apply ratio_metric_elements in H;
        destruct H as (x & Hx & Hz & E); [discriminate E | eauto].
    - intros (Hc & x & Hx & Hz).
      exists (MText (format_2f x ++ "x")%string). apply Hin. do 7 right. left.
      unfold history_section.
      destruct (Z.gtb_spec (transaction_count (customer_stats r)) 0); [ | lia].
      rewrite !in_app_iff. do 3 right.
      apply ratio_metric_elements. eauto. }
  split; [exact Havg | split; [exact Hmax | ] ].
  intros Hzero. split; intros v H.
  - destruct (proj1 Havg (ex_intro _ v H)) as (_ & x & Hx & Hz).
    rewrite Hr in Hx. cbn [amount_to_avg_ratio assessment] in Hx.
    unfold avg_ratio in Hx.
    destruct (gtb (avg_amount _) zero) eqn:Hd; [ | discriminate Hx].
    injection Hx as <-. rewrite (fdiv_zero_positive _ _ Hzero Hd) in Hz.
    discriminate Hz.
  - destruct (proj1 Hmax (ex_intro _ v H)) as (_ & x & Hx & Hz).
    rewrite Hr in Hx. cbn [amount_to_max_ratio assessment] in Hx.
    unfold max_ratio in Hx.
    destruct (gtb (max_amount _) zero) eqn:Hd; [ | discriminate Hx].
    injection Hx as <-. rewrite (fdiv_zero_positive _ _ Hzero Hd) in Hz.
    discriminate Hz.
Qed.

(** ** The indicators on the page *)

Lemma warnings_app (l1 l2 : list element) :
  warnings (l1 ++ l2) = warnings l1 ++ warnings l2.
Proof. apply flat_map_app. Qed.

Lemma warnings_none (l : list element) :
  (forall e, In e l -> forall s, e <> WarningBox s) -> warnings l = [].
Proof.
  induction l as [ | e l IH]; intros H; [reflexivity | ].
  cbn [warnings flat_map]. fold (warnings l).
  rewrite IH by (intros e' He'; apply H; now right).
  destruct e; try reflexivity. exfalso. now apply (H (WarningBox body) (or_introl eq_refl) body).
Qed.

Lemma warnings_of_indicators (l : list string) :
  warnings (map (fun i => WarningBox (bullet i)) l) = map bullet l.
Proof.
  induction l as [ | i l IH]; [reflexivity | ].
  cbn [map warnings flat_map app]. fold (warnings (map (fun i => WarningBox (bullet i)) l)).
  now rewrite IH.
Qed.

(** X16: the indicators reach the page unchanged and in order: apart from the
    warning of [load_model], the warnings of the page are the indicators of
    the assessment, each behind a bullet; and the page says "No risk
    indicators detected." exactly when the assessment has none. *)
Theorem page_warnings_are_the_indicators (file : ModelFile) (id : Z) (amount : float) :
  exists page r,
    page_from file id amount page r /\
    warnings page = warnings (snd (load_model file)) ++ map bullet (fraud_indicators r) /\
    (In (SuccessBox "No risk indicators detected.") page <-> fraud_indicators r = []).
Proof.
  destruct (page_exists file id amount) as (page & r & Hp & _ & Hpage & Hin).
  exists page, r. split; [exact Hp | ]. split.
  - rewrite Hpage, !warnings_app.
    rewrite (warnings_none simulate_processing)
      by (intros e He s ->; apply simulate_processing_of_elements in He; discriminate He).
    rewrite (warnings_none (history_error _ _))
      by (intros e He s ->; apply history_error_elements in He;
          destruct He as [? He]; discriminate He).
    rewrite (warnings_none (display_result r))
      by (intros e He s ->; unfold display_result in He;
          destruct (predicted_fraud r); part_cases He).
    rewrite (warnings_none (history_section r))
      by (intros e He s ->; history_cases He).
    rewrite (warnings_none (actions_section r))
      by (intros e He s ->; unfold actions_section in He;
          destruct (predicted_fraud r); part_cases He).
    assert (Hind : warnings (indicator_section r) = map bullet (fraud_indicators r)).
    { unfold indicator_section. destruct (fraud_indicators r) as [ | i l]; [reflexivity | ].
      change (warnings (Write "**Risk Indicators:**"
                          :: map (fun i => WarningBox (bullet i)) (i :: l)))
        with (warnings (map (fun i => WarningBox (bullet i)) (i :: l))).
      apply warnings_of_indicators. }
    rewrite Hind. cbn [warnings flat_map app]. now rewrite !app_nil_r.
  - rewrite Hin. unfold simulate_processing. split.
    + intros H. page_cases H;
        try (unfold display_result, actions_section in H;
             destruct (predicted_fraud r); part_cases H).
      apply indicator_section_elements in H.
      destruct H as [ [_ H] | [ [H _] | (? & H & _) ] ];
        [exact H | discriminate H | discriminate H].
    + intros Hnone. do 8 right. left. unfold indicator_section. rewrite Hnone.
      now left.
Qed.

(** * The progress bar *)

(** ** Integers as floats *)

Lemma iter_xO_value (p d : positive) :
  Zpos (Pos.iter xO p d) = Zpos p * 2 ^ Zpos d.
Proof.
  induction d as [ | d IH] using Pos.peano_ind.
  - cbn [Pos.iter]. lia.
  - rewrite Pos.iter_succ, Pos2Z.inj_xO, IH, Pos2Z.inj_succ, Z.pow_succ_r by lia. lia.
Qed.

Lemma iter_xO_digits (p d : positive) :
  Zdigits2 (Zpos (Pos.iter xO p d)) = Zdigits2 (Zpos p) + Zpos d.
Proof.
  induction d as [ | d IH] using Pos.peano_ind.
  - cbn [Pos.iter]. rewrite Zdigits2_xO. lia.
  - rewrite Pos.iter_succ, Zdigits2_xO, IH. lia.
Qed.

Lemma binary_round_aux_canonical (m : positive) (e : Z) :
  canonical (Zpos m) e -> e <= emax - prec ->
  binary_round_aux prec emax false (Zpos m) e loc_Exact = S754_finite false m e.
Proof.
  intros Hc He. unfold canonical in Hc.
  unfold binary_round_aux, shr_fexp. cbn [shr_record_of_loc].
  rewrite <- Hc, Z.sub_diag. cbn [shr shr_m loc_of_shr_record round_nearest_even].
  rewrite <- Hc, Z.sub_diag. cbn [shr shr_m shr_record_of_loc].
  destruct (Z.leb_spec e (emax - prec)); [reflexivity | lia].
Qed.

Lemma of_Z_exact (k : Z) :
  0 < k < 2 ^ 53 ->
  exists m e,
    of_Z k = S754_finite false m e /\
    canonical (Zpos m) e /\ e <= 0 /\
    (F2Q (Zpos m) e == inject_Z k)%Q.
Proof.
  intros [Hpos Hlt]. destruct k as [ | p | p]; try lia.
  unfold of_Z, binary_normalize, binary_round, shl_align.
  pose proof (Zdigits2_le_bound (Zpos p) 53 ltac:(lia) ltac:(lia)) as Hd.
  assert (Hd0 : 0 < Zdigits2 (Zpos p)) by (cbn [Zdigits2]; lia).
  change (Zpos (digits2_pos p)) with (Zdigits2 (Zpos p)).
  rewrite fexp_eq.
  replace (Z.max (Zdigits2 (Zpos p) + 0 - 53) (-1074)) with (Zdigits2 (Zpos p) - 53) by lia.
  destruct (Zdigits2 (Zpos p) - 53 - 0) as [ | d | d] eqn:E; try lia.
  - assert (Hc : canonical (Zpos p) 0) by (unfold canonical; rewrite fexp_eq; lia).
    rewrite (binary_round_aux_canonical p 0 Hc ltac:(unfold emax, prec; lia)).
    exists p, 0. repeat split; auto; try lia.
    unfold F2Q. rewrite (bpow_Z 0 ltac:(lia)). change (inject_Z (2 ^ 0)) with 1%Q. ring.
  - assert (Hc : canonical (Zpos (Pos.iter xO p d)) (Zdigits2 (Zpos p) - 53)).
    { unfold canonical. rewrite fexp_eq, iter_xO_digits. lia. }
    rewrite (binary_round_aux_canonical _ _ Hc ltac:(unfold emax, prec; lia)).
    exists (Pos.iter xO p d), (Zdigits2 (Zpos p) - 53). repeat split; auto; try lia.
    rewrite iter_xO_value.
    replace (Zdigits2 (Zpos p) - 53) with (- Zpos d) by lia.
    pose proof (F2Q_shift (Zpos p) (- Zpos d) (Zpos d) ltac:(lia)) as Hs.
    replace (- Zpos d + Zpos d) with 0 in Hs by lia.
    rewrite <- Hs. unfold F2Q. rewrite (bpow_Z 0 ltac:(lia)).
    change (inject_Z (2 ^ 0)) with 1%Q. ring.
Qed.

(** ** Exact quotients *)

Lemma canonical_unique n1 e1 n2 e2 :
  0 < n1 -> 0 <= n2 -> canonical n1 e1 -> canonical n2 e2 ->
  (F2Q n1 e1 == F2Q n2 e2)%Q -> n1 = n2 /\ e1 = e2.
Proof.
  intros H1 H2 C1 C2 Hv.
  assert (He : e1 = e2).
  { destruct (Z.lt_trichotomy e1 e2) as [L | [E | G] ]; [exfalso | exact E | exfalso].
    - pose proof (canonical_exp_lt n1 e1 n2 e2 ltac:(lia) H2 C1 C2 L). lra.
    - pose proof (canonical_exp_lt n2 e2 n1 e1 H2 ltac:(lia) C2 C1 ltac:(lia)). lra. }
  subst e2. split; [ | reflexivity].
  destruct (Z.lt_trichotomy n1 n2) as [L | [E | G] ]; [exfalso | exact E | exfalso].
  - pose proof (F2Q_lt_mantissa n1 n2 e1 L). lra.
  - pose proof (F2Q_lt_mantissa n2 n1 e1 ltac:(lia)). lra.
Qed.

Lemma rounds_to_exact y m e n g :
  rounds_to y m e -> 0 <= n -> canonical n g -> (y == F2Q n g)%Q ->
  (F2Q m e == y)%Q.
Proof.
  intros (q & gq & Hq & Cq & [Blo Bhi] & Hm & Cm & R) Hn Cn Hy.
  pose proof (canonical_gap n g q gq Hn Hq Cn Cq) as G.
  pose proof (F2Q_succ q gq) as S. pose proof (bpow_pos gq).
  destruct R as [ [E L] | [E L] ], G as [G | G]; lra.
Qed.

Lemma fdiv_self (m : positive) (e : Z) :
  fdiv (S754_finite false m e) (S754_finite false m e) = f1_0.
Proof.
  destruct (fdiv_finite_spec m m e e) as (r & g & R & E).
  unfold fdiv. rewrite E.
  pose proof (F2Q_pos (Zpos m) e eq_refl) as P.
  assert (Hy : (F2Q (Zpos m) e / F2Q (Zpos m) e == F2Q (2 ^ 52) (-52))%Q).
  { unfold F2Q at 3. change (inject_Z (2 ^ 52) * bpow (-52))%Q with (4503599627370496 * (1 # 4503599627370496))%Q.
    field. lra. }
  assert (C1 : canonical (2 ^ 52) (-52)) by reflexivity.
  pose proof (rounds_to_exact _ r g (2 ^ 52) (-52) R ltac:(lia) C1 Hy) as Hv.
  rewrite Hy in Hv.
  destruct R as (? & ? & ? & ? & ? & Hr & Cr & ?).
  destruct (canonical_unique (2 ^ 52) (-52) r g ltac:(lia) Hr C1 Cr ltac:(symmetry; exact Hv))
    as [<- <-].
  reflexivity.
Qed.

(** ** The values of the progress bar *)

Lemma canonical_valid (m : positive) (e : Z) :
  canonical (Zpos m) e -> e <= emax - prec ->
  valid_binary prec emax (S754_finite false m e) = true.
Proof.
  intros Hc He. cbn [valid_binary]. unfold bounded, canonical_mantissa.
  unfold canonical in Hc. cbn [Zdigits2] in Hc.
  apply andb_true_intro. split; [apply Z.eqb_eq; lia | apply Z.leb_le; exact He].
Qed.

Lemma finish_finite (m : positive) (e : Z) :
  e <= emax - prec -> finish (Zpos m) e = S754_finite false m e.
Proof. intros He. unfold finish. destruct (Z.leb_spec e (emax - prec)); [reflexivity | lia]. Qed.

Lemma leb_zero_finish (m e : Z) : 0 <= m -> leb zero (finish m e) = true.
Proof.
  intros H. unfold finish. destruct m as [ | p | p]; try lia; [reflexivity | ].
  destruct (e <=? emax - prec); reflexivity.
Qed.

Lemma progress_value_le (n i j : Z) :
  0 <= i <= j -> j < n -> n < 2 ^ 53 ->
  leb (progress_value i n) (progress_value j n) = true.
Proof.
  intros Hij Hjn Hn. unfold progress_value.
  destruct (of_Z_exact (i + 1) ltac:(lia)) as (m1 & e1 & -> & C1 & E1 & V1).
  destruct (of_Z_exact (j + 1) ltac:(lia)) as (m2 & e2 & -> & C2 & E2 & V2).
  destruct (of_Z_exact n ltac:(lia)) as (mn & en & -> & _ & _ & _).
  assert (B1 : e1 <= emax - prec) by (unfold emax, prec; lia).
  assert (B2 : e2 <= emax - prec) by (unfold emax, prec; lia).
  apply fdiv_monotone_finite.
  - now apply canonical_valid.
  - now apply canonical_valid.
  - rewrite <- (finish_finite m1 e1 B1), <- (finish_finite m2 e2 B2).
    apply finish_leb; auto; try lia.
    rewrite V1, V2, <- Zle_Qle. lia.
Qed.

Lemma progress_value_last (n : Z) :
  0 < n < 2 ^ 53 -> progress_value (n - 1) n = f1_0.
Proof.
  intros Hn. unfold progress_value. replace (n - 1 + 1) with n by lia.
  destruct (of_Z_exact n Hn) as (m & e & -> & _). apply fdiv_self.
Qed.

Lemma progress_value_nonneg (n i : Z) :
  0 <= i < n -> n < 2 ^ 53 -> leb zero (progress_value i n) = true.
Proof.
  intros Hi Hn. unfold progress_value.
  destruct (of_Z_exact (i + 1) ltac:(lia)) as (m1 & e1 & -> & _).
  destruct (of_Z_exact n ltac:(lia)) as (mn & en & -> & _).
  destruct (fdiv_finite_spec m1 mn e1 en) as (r & g & R & E).
  unfold fdiv. rewrite E. apply leb_zero_finish.
  now destruct R as (? & ? & ? & ? & ? & ? & ? & ?).
Qed.

Lemma progress_value_in_range (n i : Z) :
  0 <= i < n -> n < 2 ^ 53 -> progress_in_range (progress_value i n).
Proof.
  intros Hi Hn. split; [now apply progress_value_nonneg | ].
  rewrite <- (progress_value_last n ltac:(lia)).
  apply progress_value_le; lia.
Qed.

Lemma progress_values_loop (n i : Z) (l : list string) :
  progress_values (progress_loop n i l) = values_from n i (List.length l).
Proof.
  revert i. induction l as [ | stage rest IH]; intros i; [reflexivity | ].
  cbn [progress_loop progress_values flat_map app List.length values_from].
  f_equal. apply IH.
Qed.

Lemma progress_values_simulate (l : list string) :
  progress_values (simulate_processing_of l) =
  values_from (Z.of_nat (List.length l)) 0 (List.length l).
Proof.
  unfold simulate_processing_of, progress_values. rewrite !flat_map_app.
  fold (progress_values (progress_loop (Z.of_nat (List.length l)) 0 l)).
  rewrite progress_values_loop. cbn [flat_map app]. now rewrite app_nil_r.
Qed.

Lemma values_from_in (n i : Z) (len : nat) (v : float) :
  In v (values_from n i len) ->
  exists j, i <= j < i + Z.of_nat len /\ v = progress_value j n.
Proof.
  revert i. induction len as [ | len IH]; intros i; cbn [values_from In].
  - contradiction.
  - intros [<- | H].
    + exists i. split; [lia | reflexivity].
    + destruct (IH _ H) as (j & Hj & ->). exists j. split; [lia | reflexivity].
Qed.

Lemma values_from_length (n i : Z) (len : nat) :
  List.length (values_from n i len) = len.
Proof.
  revert i. induction len as [ | len IH]; intros i; cbn [values_from List.length];
    [reflexivity | now rewrite IH].
Qed.

Lemma values_from_sorted (n i : Z) (len : nat) :
  0 <= i -> i + Z.of_nat len <= n -> n < 2 ^ 53 ->
  StronglySorted (fun a b => leb a b = true) (values_from n i len).
Proof.
  revert i. induction len as [ | len IH]; intros i Hi Hlen Hn; cbn [values_from].
  - constructor.
  - constructor; [apply IH; lia | ].
    apply Forall_forall. intros v Hv.
    destruct (values_from_in _ _ _ _ Hv) as (j & Hj & ->).
    apply progress_value_le; lia.
Qed.

Lemma values_from_last (n i : Z) (len : nat) (d : float) :
  last (values_from n i (S len)) d = progress_value (i + Z.of_nat len) n.
Proof.
  revert i. induction len as [ | len IH]; intros i.
  - cbn [values_from last]. f_equal. lia.
  - change (values_from n i (S (S len)))
      with (progress_value i n :: values_from n (i + 1) (S len)).
    change (last (progress_value i n :: values_from n (i + 1) (S len)) d)
      with (last (values_from n (i + 1) (S len)) d).
    rewrite IH. f_equal. lia.
Qed.

(** X17: whatever the list of stages (shorter than 2^53), every value
    [simulate_processing] sets the progress bar to lies in [0.0, 1.0], the
    range [st.progress] accepts; the values never decrease; and the last one
    is exactly 1.0. *)
Theorem progress_values_in_range_and_complete
    (stage_list : list string)
    (Hlen : Z.of_nat (List.length stage_list) < 2 ^ 53) :
  let values := progress_values (simulate_processing_of stage_list) in
  Forall progress_in_range values /\
  StronglySorted (fun a b => leb a b = true) values /\
  List.length values = List.length stage_list /\
  (stage_list <> [] -> last values zero = f1_0).
Proof.
  cbv zeta. rewrite progress_values_simulate.
  set (n := Z.of_nat (List.length stage_list)) in *.
  repeat split.
  - apply Forall_forall. intros v Hv.
    destruct (values_from_in _ _ _ _ Hv) as (j & Hj & ->).
    apply progress_value_in_range; lia.
  - apply values_from_sorted; lia.
  - apply values_from_length.
  - intros Hne. destruct stage_list as [ | stage rest]; [contradiction | ].
    cbn [List.length] in *. rewrite values_from_last.
    replace (0 + Z.of_nat (List.length rest)) with (n - 1) by (subst n; lia).
    apply progress_value_last. subst n. lia.
Qed.

Lemma progress_values_in_range_and_complete_witness :
  let values := progress_values simulate_processing in
  Forall progress_in_range values /\
  StronglySorted (fun a b => leb a b = true) values /\
  List.length values = List.length stages /\
  (stages <> [] -> last values zero = f1_0).
Proof.
  apply (progress_values_in_range_and_complete stages). reflexivity.
Defined.

(** * A table that cannot be searched *)

(** X18: when the loaded object has no key column, the failed selection is
    reported on the page as "Error getting customer history: ..." and the
    analysis goes on as for a customer without history: zero record, no
    surfaced ratio, and the "No transaction history" notice. *)
Theorem broken_table_is_reported_and_treated_as_new
    (model_data : ModelData) (id : Z) (amount : float)
    (Hbroken : customer_stats_overall model_data = Some NoKeyColumn) :
  exists page r,
    page_from (FileLoads model_data) id amount page r /\
    In (ErrorBox "Error getting customer history: 'customer_id'") page /\
    customer_stats r = zero_record /\
    amount_to_avg_ratio r = None /\
    amount_to_max_ratio r = None /\
    In (InfoBox "No transaction history for this customer.") page.
Proof.
  destruct (page_exists (FileLoads model_data) id amount)
    as (page & r & Hp & Hr & _ & Hin).
  exists page, r. split; [exact Hp | ].
  cbn [load_model fst snd] in Hr, Hin. rewrite Hbroken in Hr, Hin.
  change (lookup (Some NoKeyColumn) id) with zero_record in Hr.
  rewrite !Hin. subst r. repeat split.
  - do 3 right. left. now left.
  - do 7 right. left. now left.
Qed.

Lemma broken_table_is_reported_and_treated_as_new_witness :
  exists page r,
    page_from (FileLoads broken_model) 7 (of_Z 600) page r /\
    In (ErrorBox "Error getting customer history: 'customer_id'") page /\
    customer_stats r = zero_record /\
    amount_to_avg_ratio r = None /\
    amount_to_max_ratio r = None /\
    In (InfoBox "No transaction history for this customer.") page.
Proof.
  apply (broken_table_is_reported_and_treated_as_new broken_model 7 (of_Z 600)).
  reflexivity.
Defined.

(** * The formatter *)

Lemma format_f_one_decimal (x : float) : format_f 1 x = format_1f x.
Proof.
  destruct x as [s | s | | s m e]; try reflexivity.
  unfold format_f, format_1f, scaled_round, tenths.
  change (10 ^ Z.of_nat 1) with 10.
  set (t := match e with
            | Zneg p => round_half_even (10 * Zpos m) (2 ^ Zpos p)
            | _ => 10 * Zpos m * 2 ^ e
            end).
  pose proof (Z.mod_pos_bound t 10 ltac:(lia)) as Hd.
  assert (Hpad : zero_pad 1 (digits_of (t mod 10)) = digits_of (t mod 10)).
  { destruct (t mod 10) as [ | p | p]; try lia; [reflexivity | ].
    do 4 (destruct p as [p | p | ]; try lia; try reflexivity). }
  now rewrite Hpad.
Qed.

Example format_2f_tie_to_even : format_2f (decimal 125 1000) = "0.12"%string.
Proof. reflexivity. Qed.

Example format_2f_below_tie : format_2f (decimal 2675 1000) = "2.67"%string.
Proof. reflexivity. Qed.

Example format_2f_padding : format_2f (decimal 12345 10) = "1234.50"%string.
Proof. reflexivity. Qed.

Example format_2f_small : format_2f (decimal 5 1000) = "0.01"%string.
Proof. reflexivity. Qed.

Example page_of_scenario_A :
  check_transaction FileMissing 42 (of_Z 1500) =
  OK ([Spinner "Analyzing transaction...";
       WarningBox "Model file not found. Using default values for demonstration."]
      ++ simulate_processing
      ++ [Markdown ("<h2 class=" ++ dquote ++ "sub-header" ++ dquote
                      ++ ">Analysis Result</h2>")%string true;
          Write "**Transaction Summary:**";
          Write "* Customer ID: 42";
          Write "* Amount: $1500.00";
          Markdown ("<div class=" ++ dquote ++ "result-box fraud" ++ dquote ++ ">")%string true;
          ErrorBox fraud_banner;
          Write "This transaction has been flagged as potentially fraudulent and should be reviewed.";
          Markdown "</div>" true;
          Markdown "### Detailed Analysis" false;
          InfoBox "No transaction history for this customer.";
          Write "**Risk Indicators:**";
          WarningBox "• High amount for a new customer";
          Markdown "### Recommended Actions" false;
          Markdown recommended_actions false]).
Proof. reflexivity. Qed.

Example history_of_scenario_B :
  option_map history_section
    (match analyze_transaction 7 (of_Z 600) sample_model with
     | OK r => Some r
     | Raise _ => None
     end) =
  Some [Write "**Customer History:**";
        Columns 3;
        Metric 1 "Previous Transactions" (MInt 20);
        Metric 1 "Total Spent" (MText "$2000.00");
        Metric 2 "Average Amount" (MText "$100.00");
        Metric 2 "Amount/Avg Ratio" (MText "6.00x");
        Metric 3 "Maximum Amount" (MText "$200.00");
        Metric 3 "Amount/Max Ratio" (MText "3.00x")].
Proof. reflexivity. Qed.
